(** * AI Study Assistant backend: request handlers of [fastapi_backend.py]

    A shallow embedding of the FastAPI handlers (upload, summary,
    flashcards, quiz, the three discovery endpoints, question answering,
    clear-session and session-info) together with the properties of the
    bounded-operation-with-fallback pattern they share.

    The handlers are Python coroutines working on one module-level dict,
    [study_sessions], and delegating the real work to agents of the
    [pipeline] module through [asyncio.wait_for(asyncio.to_thread(...))].
    They are embedded as computations in a state-and-exception monad whose
    state holds the session dict and the trace of external calls made so
    far; the agents, the request body and the operating system are an
    environment the computation reads its answers from. Calls of [logger]
    change neither the response nor the store and are left out. *)

From Stdlib Require Import ZArith NArith String Ascii List Lia Decimal.
From stdpp Require Import base option list gmap.

Local Open Scope Z_scope.

(** ** Python strings

    A [str] is a sequence of Unicode code points; [len], slicing and
    [startswith] count code points, which is what the truncation budgets
    are expressed in. *)

Abbreviation pystr := (list N).
Abbreviation bytes := (list Byte.byte).
Abbreviation path := (list N).

(** An ASCII literal of the source. *)
Definition lit (s : string) : pystr :=
  N_of_ascii <$> list_ascii_of_string s.

(** [len(x)] *)
Definition len {A} (l : list A) : Z := Z.of_nat (length l).

(** [s[:n]] for a non-negative [n]. *)
Definition slice_to (s : pystr) (n : Z) : pystr := take (Z.to_nat n) s.

Fixpoint pystr_eqb (a b : pystr) : bool :=
  match a, b with
  | [], [] => true
  | x :: a', y :: b' => (x =? y)%N && pystr_eqb a' b'
  | _, _ => false
  end.

(** [s.startswith(p)] *)
Fixpoint startswith (s p : pystr) : bool :=
  match p, s with
  | [], _ => true
  | c :: p', d :: s' => (c =? d)%N && startswith s' p'
  | _ :: _, [] => false
  end.

(** [s.endswith(p)] *)
Definition endswith (s p : pystr) : bool := startswith (rev s) (rev p).

(** [s.lower()], on the ASCII letters. The only use is the suffix test
    against ".pdf", and no code point outside A-Z lowers to one of
    ".", "p", "d", "f". *)
Definition lower_char (c : N) : N :=
  if ((65 <=? c) && (c <=? 90))%N then (c + 32)%N else c.
Definition lower (s : pystr) : pystr := lower_char <$> s.

(** The code points for which [str.isspace] holds; [split()] and
    [strip()] without arguments cut on them. *)
Definition isspace (c : N) : bool :=
  (((9 <=? c) && (c <=? 13)) || ((28 <=? c) && (c <=? 32))
   || (c =? 133) || (c =? 160) || (c =? 5760)
   || ((8192 <=? c) && (c <=? 8202))
   || (c =? 8232) || (c =? 8233) || (c =? 8239) || (c =? 8287)
   || (c =? 12288))%N.

(** [s.split()]: the maximal runs of non-space code points. [cur] is the
    run being read, reversed. *)
Fixpoint split_from (cur : pystr) (s : pystr) : list pystr :=
  match s with
  | [] => match cur with [] => [] | _ => [rev cur] end
  | c :: s' =>
      if isspace c
      then match cur with
           | [] => split_from [] s'
           | _ => rev cur :: split_from [] s'
           end
      else split_from (c :: cur) s'
  end.
Definition split (s : pystr) : list pystr := split_from [] s.

Fixpoint lstrip (s : pystr) : pystr :=
  match s with
  | c :: s' => if isspace c then lstrip s' else s
  | [] => []
  end.

(** [s.strip()] *)
Definition strip (s : pystr) : pystr := rev (lstrip (rev (lstrip s))).

(** Decimal digits of an integer, as [str(n)] and [f"{n}"] print it. *)
Fixpoint digits (u : Decimal.uint) : pystr :=
  match u with
  | Nil => []
  | D0 u => 48%N :: digits u
  | D1 u => 49%N :: digits u
  | D2 u => 50%N :: digits u
  | D3 u => 51%N :: digits u
  | D4 u => 52%N :: digits u
  | D5 u => 53%N :: digits u
  | D6 u => 54%N :: digits u
  | D7 u => 55%N :: digits u
  | D8 u => 56%N :: digits u
  | D9 u => 57%N :: digits u
  end.

Definition str_int (z : Z) : pystr :=
  match Z.to_int z with
  | Decimal.Pos u => digits u
  | Decimal.Neg u => 45%N :: digits u
  end.

(** [f"{size/1024/1024:.2f}"] for a byte count. [size] is far below 2^53
    and 1024 is a power of two, so the two float divisions are exact and
    the printed value is [size / 2^20] rounded to hundredths, ties to
    even. *)
Definition hundredths_of_mb (size : Z) : Z :=
  let q := (size * 100) / 1048576 in
  let r := (size * 100) mod 1048576 in
  if (524288 <? r) || ((r =? 524288) && Z.odd q) then q + 1 else q.

Definition format_mb (size : Z) : pystr :=
  let h := hundredths_of_mb size in
  str_int (h / 100) ++ lit "." ++ str_int ((h mod 100) / 10) ++ str_int (h mod 10).

(** ** Data model *)

(** The JSON-like values the agents put into flashcards, quiz questions
    and resource descriptions. A [Dict] keeps its keys in insertion order. *)
#[warnings="-register-all"] Inductive json :=
| JNull
| JBool (b : bool)
| JInt (z : Z)
| JStr (s : pystr)
| JList (l : list json)
| JDict (d : list (pystr * json)).

Abbreviation pydict := (list (pystr * json)).

(** The dict returned by [pdf_processor.extract_text_with_ocr]; the handlers
    read the keys "status", "message", "text", "word_count", "page_count"
    and "methods_used". *)
Record extraction := Extraction {
  x_status : pystr;
  x_message : pystr;
  x_text : pystr;
  x_word_count : Z;
  x_page_count : Z;
  x_methods_used : list pystr
}.

(** One value of [study_sessions]: the dict stored by [upload_pdf]. *)
Record session := Session {
  text : pystr;
  file_info : pystr;
  processing_result : extraction;
  filename : pystr
}.

(** The pydantic response models. *)
Record ProcessingStatus := mkProcessingStatus {
  ps_status : pystr;
  ps_message : pystr;
  ps_word_count : Z;
  ps_page_count : Z;
  ps_methods_used : list pystr
}.

Record SummaryResponse := mkSummaryResponse {
  summary : pystr;
  summary_status : pystr
}.

(** [FlashcardResponse], [QuizResponse], [ResearchPapersResponse],
    [VideosResponse] and [WebResourcesResponse] have the same three fields
    and differ in the name of the list field, kept in [list_field]. *)
Record ListResponse := mkListResponse {
  list_field : pystr;
  items : list pydict;
  count : Z;
  status : pystr
}.

Definition FlashcardResponse (flashcards : list pydict) (count : Z) (status : pystr) :=
  mkListResponse (lit "flashcards") flashcards count status.
Definition QuizResponse (quiz : list pydict) (count : Z) (status : pystr) :=
  mkListResponse (lit "quiz") quiz count status.
Definition ResearchPapersResponse (papers : list pydict) (count : Z) (status : pystr) :=
  mkListResponse (lit "papers") papers count status.
Definition VideosResponse (videos : list pydict) (count : Z) (status : pystr) :=
  mkListResponse (lit "videos") videos count status.
Definition WebResourcesResponse (resources : list pydict) (count : Z) (status : pystr) :=
  mkListResponse (lit "resources") resources count status.

Record AnswerResponse := mkAnswerResponse {
  answer : pystr;
  answer_status : pystr
}.

Record QuestionRequest := mkQuestionRequest {
  question : pystr;
  document_text : pystr
}.

(** [UploadFile]: the file name sent by the client, if any. The body is
    obtained by awaiting [file.read()]. *)
Record UploadFile := mkUploadFile {
  upload_filename : option pystr
}.

(** ** Exceptions *)

(** The exceptions a handler can see. [Exception msg] stands for any
    other subclass of [Exception] an agent or the system raises. *)
Inductive exn :=
| HTTPException (status_code : Z) (detail : pystr)
| TimeoutError
| KeyError (key : pystr)
| Exception (msg : pystr).

(** The classes named by the [except] clauses of the source. A bare
    [except:] is listed as [cls_Exception]: the model has no exception
    outside that class. *)
Inductive exn_class := cls_HTTPException | cls_TimeoutError | cls_Exception.

Definition isinstance (e : exn) (c : exn_class) : bool :=
  match c, e with
  | cls_Exception, _ => true
  | cls_HTTPException, HTTPException _ _ => true
  | cls_TimeoutError, TimeoutError => true
  | _, _ => false
  end.

Inductive result (A : Type) :=
| Ok (a : A)
| Raise (e : exn).
Arguments Ok {A} a.
Arguments Raise {A} e.

(** ** The world outside a handler *)

(** The work handed to [asyncio.to_thread]: the agent method and its
    arguments. *)
Inductive call :=
| extract_text_with_ocr (temp_file_path : path)
| summary_generate_summary (text : pystr)
| generate_flashcards_structured (text : pystr) (num_cards : Z)
| generate_quiz_structured (text : pystr) (num_questions : Z)
| find_papers (text : pystr) (max_papers : Z)
| extract_smart_keywords_and_topic (text : pystr)
| find_videos (research_keywords : list pystr) (topic : pystr) (max_videos : Z)
| find_resources (research_keywords : list pystr) (topic : pystr) (max_resources : Z)
| chat_completion (messages : list pydict) (arg2 : json) (arg3 : Z).

(** What a handler does to the outside, in order. The first two are the
    awaited ones: the coroutine is suspended there. *)
Inductive event :=
| file_read
| wait_for_to_thread (c : call) (timeout : Z)
| NamedTemporaryFile (content : bytes)
| os_path_exists (p : path)
| os_unlink (p : path).

(** While a coroutine is suspended other requests run; all they can do to
    [study_sessions] is what [upload_pdf] and [clear_session] do. *)
Inductive store_op :=
| store_put (session_id : pystr) (s : session)
| store_del (session_id : pystr).

Definition apply_op (m : gmap pystr session) (o : store_op) : gmap pystr session :=
  match o with
  | store_put k s => <[k := s]> m
  | store_del k => delete k m
  end.

Definition apply_ops (ops : list store_op) (m : gmap pystr session) : gmap pystr session :=
  foldl apply_op m ops.

(** The agents of [pipeline], the upload body and the file system, as
    they answer at one point of the trace: with a value or with an
    exception, [TimeoutError] when [wait_for] gave up first. The module
    [pipeline] is imported, not defined, by [fastapi_backend.py]; its
    agents are parameters here, and the types of their results are those
    the handlers rely on: a str where [startswith] is called on it, a list
    of dicts where it goes into a [List[Dict]] field, a triple where it is
    unpacked into three names, a dict with the keys read from it for the
    extraction. *)
Record collaborators := Collaborators {
  upload_read : result bytes;
  tempfile_create : bytes -> result path;
  path_exists : path -> bool;
  path_unlink : path -> result unit;
  pdf_processor_extract : path -> result extraction;
  summary_agent_generate : pystr -> result pystr;
  flashcard_agent_generate : pystr -> Z -> result (list pydict);
  quiz_agent_generate : pystr -> Z -> result (list pydict);
  research_agent_find_papers : pystr -> Z -> result (list pydict);
  research_agent_keywords : pystr -> result (pystr * list pystr * list pystr);
  youtube_agent_find_videos : list pystr -> pystr -> Z -> result (list pydict);
  web_agent_find_resources : list pystr -> pystr -> Z -> result (list pydict);
  client_chat_completion : list pydict -> json -> Z -> result pystr
}.

(** The environment answers depending on everything that was called
    before. [others] is what the other requests do to the store while the
    coroutine is suspended at that point of the trace; [str_of_exn] is
    Python's [str(e)]. *)
Record environment := Environment {
  agents : list event -> collaborators;
  others : list event -> list store_op;
  str_of_exn : exn -> pystr
}.

Record world := World {
  study_sessions : gmap pystr session;
  trace : list event
}.

(** ** The handler monad *)

Definition M (A : Type) : Type := environment -> world -> result A * world.

Definition ret {A} (a : A) : M A := fun _ w => (Ok a, w).

Definition bind {A B} (m : M A) (k : A -> M B) : M B :=
  fun env w =>
    match m env w with
    | (Ok a, w') => k a env w'
    | (Raise e, w') => (Raise e, w')
    end.

Definition raise {A} (e : exn) : M A := fun _ w => (Raise e, w).

(** The handlers are written with stdpp's monad notation,
    [x ← m; k] for [bind m (fun x => k)]. *)
#[global] Instance M_ret : MRet M := @ret.
#[global] Instance M_bind : MBind M := fun A B k m => bind m k.

(** [try: body  except C1: h1  except C2: h2 ...]: the first clause whose
    class the exception belongs to handles it; an exception raised by a
    handler is not offered to the other clauses. *)
Definition try_except {A} (body : M A) (clauses : list (exn_class * (exn -> M A))) : M A :=
  fun env w =>
    match body env w with
    | (Ok a, w') => (Ok a, w')
    | (Raise e, w') =>
        match List.find (fun cl => isinstance e (fst cl)) clauses with
        | Some cl => snd cl e env w'
        | None => (Raise e, w')
        end
    end.

(** [try: body  finally: cleanup] *)
Definition try_finally {A} (body : M A) (cleanup : M unit) : M A :=
  fun env w =>
    match body env w with
    | (r, w') =>
        match cleanup env w' with
        | (Ok _, w'') => (r, w'')
        | (Raise e, w'') => (Raise e, w'')
        end
    end.

(** An awaited call: the event is appended to the trace, the store is as
    the other requests left it, and the call's outcome is returned or
    raised. *)
Definition suspend (env : environment) (w : world) (ev : event) : world :=
  {| study_sessions := apply_ops (others env (trace w)) (study_sessions w);
     trace := trace w ++ [ev] |}.

Definition await {A} (ev : event) (ask : collaborators -> result A) : M A :=
  fun env w => (ask (agents env (trace w)), suspend env w ev).

(** [await asyncio.wait_for(asyncio.to_thread(f, args), timeout=t)] *)
Definition wait_for {A} (c : call) (ask : collaborators -> result A) (timeout : Z) : M A :=
  await (wait_for_to_thread c timeout) ask.

(** A blocking call of the operating system: no suspension. *)
Definition system {A} (ev : event) (ask : collaborators -> result A) : M A :=
  fun env w =>
    (ask (agents env (trace w)),
     {| study_sessions := study_sessions w; trace := trace w ++ [ev] |}).

(** [session_id in study_sessions] *)
Definition contains (session_id : pystr) : M bool :=
  fun _ w => (Ok (bool_decide (is_Some (study_sessions w !! session_id))), w).

(** [study_sessions[session_id]] *)
Definition getitem (session_id : pystr) : M session :=
  fun _ w =>
    match study_sessions w !! session_id with
    | Some s => (Ok s, w)
    | None => (Raise (KeyError session_id), w)
    end.

(** [study_sessions[session_id] = s] *)
Definition setitem (session_id : pystr) (s : session) : M unit :=
  fun _ w =>
    (Ok tt, {| study_sessions := <[session_id := s]> (study_sessions w);
               trace := trace w |}).

(** [del study_sessions[session_id]] *)
Definition delitem (session_id : pystr) : M unit :=
  fun _ w =>
    match study_sessions w !! session_id with
    | Some _ =>
        (Ok tt, {| study_sessions := delete session_id (study_sessions w);
                   trace := trace w |})
    | None => (Raise (KeyError session_id), w)
    end.

(** [str(e)] *)
Definition str_exn (e : exn) : M pystr := fun env w => (Ok (str_of_exn env e), w).

(** Running a computation and keeping its exception as a value, and the
    converse; used where a local variable assigned inside a [try] is read
    by its [finally]. *)
Definition attempt {A} (m : M A) : M (result A) :=
  fun env w => match m env w with (r, w') => (Ok r, w') end.

Definition reraise {A} (r : result A) : M A :=
  match r with
  | Ok a => ret a
  | Raise e => raise e
  end.

(** ** Literals of the source *)

Definition success : pystr := lit "success".
Definition cross_mark : pystr := [10060%N].
Definition ellipsis : pystr := lit "...".
Definition no_document : exn :=
  HTTPException 404 (lit "No document found. Please upload a PDF first.").

(** [text[:max_chars] + "..."] when [len(text) > max_chars], as written in
    each of the six session handlers. *)
Definition truncate (text : pystr) (max_chars : Z) : pystr :=
  if len text >? max_chars then slice_to text max_chars ++ ellipsis else text.

(** ** [upload_pdf] *)

Definition cleanup_temp_file (temp_file_path : option path) : M unit :=
  match temp_file_path with
  | Some (c :: p) =>
      there ← system (os_path_exists (c :: p)) (fun a => Ok (path_exists a (c :: p)));
      if there : bool
      then try_except
             (system (os_unlink (c :: p)) (fun a => path_unlink a (c :: p)))
             [(cls_Exception, fun _ => ret tt)]
      else ret tt
  | _ => ret tt
  end.

Definition upload_pdf (file : UploadFile) : M ProcessingStatus :=
  match upload_filename file with
  | None | Some [] => raise (HTTPException 400 (lit "No filename provided"))
  | Some file_name =>
  if negb (endswith (lower file_name) (lit ".pdf"))
  then raise (HTTPException 400 (lit "Only PDF files are allowed")) else
  content ← await file_read upload_read;
  let file_size := len content in
  if file_size >? 50 * 1024 * 1024
  then raise (HTTPException 400 (lit "File too large. Maximum size is 50MB")) else
  if file_size =? 0
  then raise (HTTPException 400 (lit "Empty file uploaded")) else
  (* [temp_file_path] stays [None] when the [with] block raises *)
  created ← attempt (system (NamedTemporaryFile content) (fun a => tempfile_create a content));
  let temp_file_path := match created with Ok p => Some p | Raise _ => None end in
  try_finally
    (try_except
       (temp_file_path ← reraise created;
        result ← try_except
          (wait_for (extract_text_with_ocr temp_file_path)
                    (fun a => pdf_processor_extract a temp_file_path) 120)
          [(cls_TimeoutError, fun _ =>
              raise (HTTPException 408
                (lit "PDF processing timeout. File may be too complex or large.")))];
        if pystr_eqb (x_status result) (lit "error")
        then raise (HTTPException 400 (x_message result)) else
        if x_word_count result <? 10
        then raise (HTTPException 422
               (lit "Very little text could be extracted. PDF may be image-based, protected, or corrupted."))
        else
        let session_id := lit "default" in
        setitem session_id
          {| text := x_text result;
             file_info := lit "File: " ++ file_name ++ lit " (" ++ format_mb file_size ++ lit " MB)";
             processing_result := result;
             filename := file_name |};;
        ret (mkProcessingStatus (x_status result) (x_message result)
               (x_word_count result) (x_page_count result) (x_methods_used result)))
       [(cls_HTTPException, fun e => raise e);
        (cls_Exception, fun e =>
           s ← str_exn e;
           raise (HTTPException 500 (lit "Processing failed: " ++ s)))])
    (cleanup_temp_file temp_file_path)
  end.

(** ** [generate_summary] *)

Definition basic_summary (words : Z) (page_count : Z) : pystr :=
  lit "Document Summary:

This document contains " ++ str_int words ++ lit " words across " ++ str_int page_count
  ++ lit " pages. The content appears to cover academic or professional material that requires detailed study.

Key points may include important concepts, methodologies, and conclusions relevant to the subject matter. For a more detailed analysis, please try the summary generation again or use the Q&A feature to ask specific questions about the content.".

Definition generate_summary (session_id : pystr) : M SummaryResponse :=
  present ← contains session_id;
  if negb present then raise no_document else
  try_except
    (s ← getitem session_id;
     let text := text s in
     let max_chars := 8000 in
     let text := truncate text max_chars in
     summary ← wait_for (summary_generate_summary text)
                        (fun a => summary_agent_generate a text) 90;
     if startswith summary cross_mark
     then raise (HTTPException 500 summary)
     else ret (mkSummaryResponse summary success))
    [(cls_TimeoutError, fun _ =>
        try_except
          (s1 ← getitem session_id;
           s2 ← getitem session_id;
           let basic_summary :=
             basic_summary (len (split (text s1))) (x_page_count (processing_result s2)) in
           ret (mkSummaryResponse basic_summary success))
          [(cls_Exception, fun _ =>
              raise (HTTPException 408
                (lit "Summary generation timeout. Please try again with a smaller document.")))]);
     (cls_Exception, fun e =>
        s ← str_exn e;
        raise (HTTPException 500 (lit "Summary generation failed: " ++ s)))].

(** ** [generate_flashcards] *)

Definition flashcard (q a category difficulty : string) : pydict :=
  [(lit "question", JStr (lit q)); (lit "answer", JStr (lit a));
   (lit "category", JStr (lit category)); (lit "difficulty", JStr (lit difficulty))].

(** [basic_flashcards] of the [if not flashcards:] branch. *)
Definition basic_flashcards : list pydict :=
  [flashcard "What is the main topic of this document?"
     "This document covers academic or professional content that requires study and analysis."
     "General" "Easy";
   flashcard "What should you focus on when studying this material?"
     "Focus on key concepts, methodologies, and important conclusions presented in the content."
     "Study Tips" "Medium"].

(** [basic_flashcards] of the [except asyncio.TimeoutError:] branch. *)
Definition basic_flashcards_timeout : list pydict :=
  [flashcard "What is the main topic of this document?"
     "This document covers academic or professional content that requires study and analysis."
     "General" "Easy"].

Definition generate_flashcards (session_id : pystr) (num_cards : Z) : M ListResponse :=
  present ← contains session_id;
  if negb present then raise no_document else
  let num_cards :=
    if (num_cards <? 1) || (num_cards >? 20)
    then Z.min (Z.max num_cards 1) 20
    else num_cards in
  try_except
    (s ← getitem session_id;
     let text := text s in
     let max_chars := 6000 in
     let text := truncate text max_chars in
     flashcards ← wait_for (generate_flashcards_structured text num_cards)
                           (fun a => flashcard_agent_generate a text num_cards) 120;
     match flashcards with
     | [] => ret (FlashcardResponse basic_flashcards (len basic_flashcards) success)
     | _ => ret (FlashcardResponse flashcards (len flashcards) success)
     end)
    [(cls_TimeoutError, fun _ =>
        ret (FlashcardResponse basic_flashcards_timeout (len basic_flashcards_timeout) success));
     (cls_Exception, fun e =>
        s ← str_exn e;
        raise (HTTPException 500 (lit "Flashcard generation failed: " ++ s)))].

(** ** [generate_quiz] *)

Definition quiz_question (q : string) (options : list string) (correct_answer : Z)
    (explanation difficulty : string) : pydict :=
  [(lit "question", JStr (lit q));
   (lit "options", JList ((fun o => JStr (lit o)) <$> options));
   (lit "correct_answer", JInt correct_answer);
   (lit "explanation", JStr (lit explanation));
   (lit "difficulty", JStr (lit difficulty))].

(** [basic_quiz] of the [if not quiz:] branch. *)
Definition basic_quiz : list pydict :=
  [quiz_question "What type of document is this?"
     ["Academic/Professional document"; "Fiction novel"; "Recipe book"; "Comic book"]%string 0
     "Based on the content analysis, this appears to be academic or professional material."
     "Easy";
   quiz_question "What is the best approach to studying this material?"
     ["Skim through quickly"; "Focus on key concepts and take notes"; "Memorize every word";
      "Ignore the details"]%string 1
     "Effective studying involves focusing on key concepts and taking detailed notes for better retention."
     "Medium"].

(** [basic_quiz] of the [except asyncio.TimeoutError:] branch. *)
Definition basic_quiz_timeout : list pydict :=
  [quiz_question "What type of document is this?"
     ["Academic/Professional document"; "Fiction novel"; "Recipe book"; "Comic book"]%string 0
     "Based on the content analysis, this appears to be academic or professional material."
     "Easy"].

Definition generate_quiz (session_id : pystr) (num_questions : Z) : M ListResponse :=
  present ← contains session_id;
  if negb present then raise no_document else
  let num_questions :=
    if (num_questions <? 1) || (num_questions >? 15)
    then Z.min (Z.max num_questions 1) 15
    else num_questions in
  try_except
    (s ← getitem session_id;
     let text := text s in
     let max_chars := 6000 in
     let text := truncate text max_chars in
     quiz ← wait_for (generate_quiz_structured text num_questions)
                     (fun a => quiz_agent_generate a text num_questions) 120;
     match quiz with
     | [] => ret (QuizResponse basic_quiz (len basic_quiz) success)
     | _ => ret (QuizResponse quiz (len quiz) success)
     end)
    [(cls_TimeoutError, fun _ =>
        ret (QuizResponse basic_quiz_timeout (len basic_quiz_timeout) success));
     (cls_Exception, fun e =>
        s ← str_exn e;
        raise (HTTPException 500 (lit "Quiz generation failed: " ++ s)))].

(** ** [discover_research], [discover_videos], [discover_resources] *)

Definition discover_research (session_id : pystr) (max_papers : Z) : M ListResponse :=
  present ← contains session_id;
  if negb present then raise no_document else
  let max_papers := if max_papers >? 15 then 15 else max_papers in
  try_except
    (s ← getitem session_id;
     let text := text s in
     let max_chars := 4000 in
     let text := truncate text max_chars in
     papers ← wait_for (find_papers text max_papers)
                       (fun a => research_agent_find_papers a text max_papers) 180;
     ret (ResearchPapersResponse papers (len papers) success))
    [(cls_TimeoutError, fun _ => ret (ResearchPapersResponse [] 0 success));
     (cls_Exception, fun _ => ret (ResearchPapersResponse [] 0 success))].

Definition discover_videos (session_id : pystr) (max_videos : Z) : M ListResponse :=
  present ← contains session_id;
  if negb present then raise no_document else
  let max_videos := if max_videos >? 12 then 12 else max_videos in
  try_except
    (s ← getitem session_id;
     let text := text s in
     let max_chars := 3000 in
     let text := truncate text max_chars in
     '(topic, research_keywords, all_keywords) ←
        wait_for (extract_smart_keywords_and_topic text)
                 (fun a => research_agent_keywords a text) 45;
     videos ← wait_for (find_videos research_keywords topic max_videos)
                       (fun a => youtube_agent_find_videos a research_keywords topic max_videos)
                       150;
     ret (VideosResponse videos (len videos) success))
    [(cls_TimeoutError, fun _ => ret (VideosResponse [] 0 success));
     (cls_Exception, fun _ => ret (VideosResponse [] 0 success))].

Definition discover_resources (session_id : pystr) (max_resources : Z) : M ListResponse :=
  present ← contains session_id;
  if negb present then raise no_document else
  let max_resources := if max_resources >? 15 then 15 else max_resources in
  try_except
    (s ← getitem session_id;
     let text := text s in
     let max_chars := 3000 in
     let text := truncate text max_chars in
     '(topic, research_keywords, all_keywords) ←
        wait_for (extract_smart_keywords_and_topic text)
                 (fun a => research_agent_keywords a text) 45;
     resources ← wait_for (find_resources research_keywords topic max_resources)
                          (fun a => web_agent_find_resources a research_keywords topic max_resources)
                          150;
     ret (WebResourcesResponse resources (len resources) success))
    [(cls_TimeoutError, fun _ => ret (WebResourcesResponse [] 0 success));
     (cls_Exception, fun _ => ret (WebResourcesResponse [] 0 success))].

(** ** [ask_question] *)

Definition question_prompt (text_content question : pystr) : pystr :=
  lit "Based on the following document content, please answer the question comprehensively and accurately.

Document Content:
" ++ text_content ++ lit "

Question: " ++ question ++ lit "

Instructions:
- Provide a detailed, accurate answer based on the document
- If the information isn't in the document, say so clearly
- Use specific examples from the document when possible
- Keep the answer well-structured and easy to understand".

Definition ask_question (request : QuestionRequest) : M AnswerResponse :=
  match strip (question request) with
  | [] => raise (HTTPException 400 (lit "Question cannot be empty"))
  | _ =>
  match strip (document_text request) with
  | [] => raise (HTTPException 400 (lit "No document text provided"))
  | _ =>
  try_except
    (let max_chars := 6000 in
     let text_content := slice_to (document_text request) max_chars in
     let text_content :=
       if len (document_text request) >? max_chars
       then text_content ++ ellipsis else text_content in
     let prompt := question_prompt text_content (question request) in
     let messages := [[(lit "role", JStr (lit "user")); (lit "content", JStr prompt)]] in
     response ← wait_for (chat_completion messages JNull 800)
                         (fun a => client_chat_completion a messages JNull 800) 60;
     if startswith response cross_mark
     then raise (HTTPException 500 response)
     else ret (mkAnswerResponse response success))
    [(cls_TimeoutError, fun _ =>
        raise (HTTPException 408 (lit "Question answering timeout. Please try again.")));
     (cls_Exception, fun e =>
        s ← str_exn e;
        raise (HTTPException 500 (lit "Question answering failed: " ++ s)))]
  end end.

(** ** [clear_session] and [get_session_info] *)

Definition clear_session (session_id : pystr) : M pydict :=
  present ← contains session_id;
  if present : bool
  then delitem session_id;;
       ret [(lit "message", JStr (lit "Session cleared successfully"));
            (lit "status", JStr (lit "success"))]
  else ret [(lit "message", JStr (lit "No active session found"));
            (lit "status", JStr (lit "info"))].

Definition get_session_info (session_id : pystr) : M pydict :=
  present ← contains session_id;
  if negb present
  then ret [(lit "active", JBool false); (lit "message", JStr (lit "No active session"))]
  else
  session_data ← getitem session_id;
  ret [(lit "active", JBool true);
       (lit "file_info", JStr (file_info session_data));
       (lit "filename", JStr (filename session_data));
       (lit "word_count", JInt (x_word_count (processing_result session_data)));
       (lit "page_count", JInt (x_page_count (processing_result session_data)));
       (lit "methods_used", JList (JStr <$> x_methods_used (processing_result session_data)))].

(** ** Observing a run *)

Definition response {A} (m : M A) (env : environment) (w : world) : result A :=
  fst (m env w).

Definition after {A} (m : M A) (env : environment) (w : world) : world :=
  snd (m env w).

(** The events a run appended to the trace. *)
Definition new_events {A} (m : M A) (env : environment) (w : world) : list event :=
  drop (length (trace w)) (trace (after m env w)).

(** The offloaded calls among some events, with their deadlines. *)
Fixpoint offloaded (evs : list event) : list (call * Z) :=
  match evs with
  | [] => []
  | wait_for_to_thread c t :: evs' => (c, t) :: offloaded evs'
  | _ :: evs' => offloaded evs'
  end.

(** The suspension points among some events. *)
Definition awaited (ev : event) : bool :=
  match ev with
  | file_read | wait_for_to_thread _ _ => true
  | _ => false
  end.

Fixpoint suspensions (evs : list event) : nat :=
  match evs with
  | [] => 0
  | ev :: evs' => (if awaited ev then 1 else 0) + suspensions evs'
  end.

(** The document text and the item count a call carries. *)
Definition text_arg (c : call) : option pystr :=
  match c with
  | summary_generate_summary t
  | generate_flashcards_structured t _
  | generate_quiz_structured t _
  | find_papers t _
  | extract_smart_keywords_and_topic t => Some t
  | _ => None
  end.

Definition count_arg (c : call) : option Z :=
  match c with
  | generate_flashcards_structured _ n
  | generate_quiz_structured _ n
  | find_papers _ n
  | find_videos _ _ n
  | find_resources _ _ n => Some n
  | _ => None
  end.

(** No other request writes the store while this one is suspended. *)
Definition quiet (env : environment) : Prop := forall tr, others env tr = [].

(** What the other requests did to the store during the suspensions among
    the events [evs] that follow the trace [tr]. *)
Fixpoint meanwhile (env : environment) (tr evs : list event) : list store_op :=
  match evs with
  | [] => []
  | ev :: evs' =>
      (if awaited ev then others env tr else []) ++ meanwhile env (tr ++ [ev]) evs'
  end.

(** The run wrote nothing of its own: the store after it is the store
    before it with only the other requests' writes applied. *)
Definition leaves_store {A} (m : M A) (env : environment) (w : world) : Prop :=
  study_sessions (after m env w)
    = apply_ops (meanwhile env (trace w) (new_events m env w)) (study_sessions w).

(** The exception with which the agents answer an offloaded call, if they
    answer with one. *)
Definition error_of {A} (r : result A) : option exn :=
  match r with
  | Ok _ => None
  | Raise e => Some e
  end.

Definition failure (a : collaborators) (c : call) : option exn :=
  match c with
  | extract_text_with_ocr p => error_of (pdf_processor_extract a p)
  | summary_generate_summary t => error_of (summary_agent_generate a t)
  | generate_flashcards_structured t n => error_of (flashcard_agent_generate a t n)
  | generate_quiz_structured t n => error_of (quiz_agent_generate a t n)
  | find_papers t n => error_of (research_agent_find_papers a t n)
  | extract_smart_keywords_and_topic t => error_of (research_agent_keywords a t)
  | find_videos k t n => error_of (youtube_agent_find_videos a k t n)
  | find_resources k t n => error_of (web_agent_find_resources a k t n)
  | chat_completion m x y => error_of (client_chat_completion a m x y)
  end.

(** The offloaded calls among the events [evs] that follow the trace [tr],
    each with the agents as they were when the call was made. *)
Fixpoint asked_from (env : environment) (tr evs : list event) : list (call * collaborators) :=
  match evs with
  | [] => []
  | wait_for_to_thread c t :: evs' =>
      (c, agents env tr) :: asked_from env (tr ++ [wait_for_to_thread c t]) evs'
  | ev :: evs' => asked_from env (tr ++ [ev]) evs'
  end.

(** The offloaded calls of a run and who answered them. *)
Definition asked {A} (m : M A) (env : environment) (w : world) : list (call * collaborators) :=
  asked_from env (trace w) (new_events m env w).

(** Some offloaded call of the run ended with exception [e]
    ([TimeoutError]: the deadline passed first). *)
Definition call_failed {A} (m : M A) (env : environment) (w : world) (e : exn) : Prop :=
  exists c a, (c, a) ∈ asked m env w /\ failure a c = Some e.

(** The value an agent returned for an offloaded call, if it returned one. *)
Definition value_of {A} (r : result A) : option A :=
  match r with
  | Ok a => Some a
  | Raise _ => None
  end.

(** The text extraction of an upload came back in time with [r]. *)
Definition extraction_returned {A} (m : M A) (env : environment) (w : world)
    (r : extraction) : Prop :=
  exists p a, (extract_text_with_ocr p, a) ∈ asked m env w /\
              pdf_processor_extract a p = Ok r.

(** The answer is the 404 exception and the run left no mark: no event,
    hence no call of an agent, and the world as it was. *)
Definition not_found_untouched {A} (m : M A) (env : environment) (w : world) : Prop :=
  response m env w
    = Raise (HTTPException 404 (lit "No document found. Please upload a PDF first.")) /\
  new_events m env w = [] /\
  after m env w = w.

(** The count field of a response is the length of its list. *)
Definition count_matches (r : result ListResponse) : Prop :=
  match r with
  | Ok resp => count resp = len (items resp)
  | Raise _ => True
  end.

(** A success response with an empty list. *)
Definition empty_success (r : result ListResponse) : Prop :=
  exists resp, r = Ok resp /\ items resp = [] /\ count resp = 0 /\ status resp = success.

(** ** The claims of the specification, in its words *)

(** Truncation: text longer than the budget is forwarded as its first
    budget-many characters followed by the marker, so that its length is
    the budget plus the marker's; text within the budget is forwarded
    unchanged. *)
Definition truncation_spec (budget : Z) (text forwarded : pystr) : Prop :=
  (len text > budget ->
     forwarded = slice_to text budget ++ lit "..." /\
     len forwarded = budget + len (lit "...")) /\
  (len text <= budget -> forwarded = text).

(** The first offloaded call of a run carries document text cut to
    [budget]. *)
Definition forwards_cut {A} (m : M A) (env : environment) (w : world)
    (budget : Z) (text : pystr) : Prop :=
  exists c t forwarded,
    head (offloaded (new_events m env w)) = Some (c, t) /\
    text_arg c = Some forwarded /\
    truncation_spec budget text forwarded.

(** Clamping: a requested count outside the closed range [lo, hi] is
    replaced by the nearest bound. *)
Definition clamping_spec (lo hi requested effective : Z) : Prop :=
  (requested < lo -> effective = lo) /\ (hi < requested -> effective = hi).

(** The item counts a run passed to the agents, in call order. *)
Definition counts_passed {A} (m : M A) (env : environment) (w : world) : list Z :=
  omap (fun ct => count_arg (fst ct)) (offloaded (new_events m env w)).

(** A handler taking a count clamps it into [lo, hi]: whenever the session
    exists, every count it passes on obeys [clamping_spec]. *)
Definition clamps_into (h : pystr -> Z -> M ListResponse) (lo hi : Z) : Prop :=
  forall env w session_id s n k,
    study_sessions w !! session_id = Some s ->
    k ∈ counts_passed (h session_id n) env w ->
    clamping_spec lo hi n k.

(** ** Sample data for the examples *)

Definition default_id : pystr := lit "default".

Definition sample_extraction (text : pystr) (pages : Z) : extraction :=
  {| x_status := lit "success";
     x_message := lit "Text extracted";
     x_text := text;
     x_word_count := len (split text);
     x_page_count := pages;
     x_methods_used := [lit "pdfplumber"] |}.

Definition sample_session (text : pystr) (pages : Z) : session :=
  {| text := text;
     file_info := lit "File: notes.pdf (0.12 MB)";
     processing_result := sample_extraction text pages;
     filename := lit "notes.pdf" |}.

Definition empty_world : world := World ∅ [].

Definition world_with (s : session) : world := World {[ default_id := s ]} [].

(** Agents none of which answers before its deadline, and a file system
    that works. *)
Definition slow_agents : collaborators :=
  {| upload_read := Ok [Byte.x25; Byte.x50; Byte.x44; Byte.x46];
     tempfile_create := fun _ => Ok (lit "/tmp/tmpab12.pdf");
     path_exists := fun _ => true;
     path_unlink := fun _ => Ok tt;
     pdf_processor_extract := fun _ => Raise TimeoutError;
     summary_agent_generate := fun _ => Raise TimeoutError;
     flashcard_agent_generate := fun _ _ => Raise TimeoutError;
     quiz_agent_generate := fun _ _ => Raise TimeoutError;
     research_agent_find_papers := fun _ _ => Raise TimeoutError;
     research_agent_keywords := fun _ => Raise TimeoutError;
     youtube_agent_find_videos := fun _ _ _ => Raise TimeoutError;
     web_agent_find_resources := fun _ _ _ => Raise TimeoutError;
     client_chat_completion := fun _ _ _ => Raise TimeoutError |}.

(** An environment whose agents answer the same at every point, with no
    other request running. *)
Definition steady (a : collaborators) : environment :=
  {| agents := fun _ => a; others := fun _ => []; str_of_exn := fun _ => [] |}.


(** Agents that answer at once: the research agent finds one paper, the
    keyword extraction returns a topic and a keyword. *)
Definition one_item : pydict := [(lit "title", JStr (lit "A survey"))].

Definition quick_agents : collaborators :=
  {| upload_read := Ok [Byte.x25; Byte.x50; Byte.x44; Byte.x46];
     tempfile_create := fun _ => Ok (lit "/tmp/tmpab12.pdf");
     path_exists := fun _ => true;
     path_unlink := fun _ => Ok tt;
     pdf_processor_extract := fun _ => Ok (sample_extraction (lit "scan") 1);
     summary_agent_generate := fun _ => Ok (lit "A short summary.");
     flashcard_agent_generate := fun _ _ => Ok [];
     quiz_agent_generate := fun _ _ => Ok [];
     research_agent_find_papers := fun _ _ => Ok [one_item];
     research_agent_keywords := fun _ => Ok (lit "graphs", [lit "trees"], [lit "trees"]);
     youtube_agent_find_videos := fun _ _ _ => Ok [one_item];
     web_agent_find_resources := fun _ _ _ => Ok [one_item];
     client_chat_completion := fun _ _ _ => Ok (lit "Yes.") |}.

Definition short_session : session := sample_session (lit "one two three") 1.

(** An upload whose extraction by [quick_agents] yields a single word. *)
Definition scanned_upload : UploadFile := mkUploadFile (Some (lit "Scan.PDF")).

(** ** [root], [startup_event] and [health_check]

    The agents live in eight module-level names, [None] until
    [startup_event] binds them. The module namespace is a map from names
    to agent objects, an unbound name standing for [None]. An agent object
    is opaque to the backend; [health_check] only asks for its truth
    value. *)

Section Startup.

Context {agent : Type}.
Variable truthy : agent -> bool.

Definition agent_names : list pystr :=
  [lit "client"; lit "pdf_processor"; lit "summary_agent"; lit "flashcard_agent";
   lit "quiz_agent"; lit "research_agent"; lit "youtube_agent"; lit "web_agent"].

(** The classes of [pipeline] as their constructors answer, and the
    blocking [client.chat_completion(..., max_tokens=10)] of the
    connection test. *)
Record pipeline_classes := PipelineClasses {
  OpenAIClient : result agent;
  EnhancedPDFProcessor : result agent;
  SummaryAgent : agent -> result agent;
  FlashcardAgent : agent -> result agent;
  QuizAgent : agent -> result agent;
  EnhancedResearchDiscoveryAgent : agent -> result agent;
  YouTubeDiscoveryAgent : agent -> result agent;
  WebResourceAgent : agent -> result agent;
  test_connection : agent -> result pystr
}.

(** [bool(os.getenv("OPENAI_API_KEY"))] *)
Definition key_configured (key : option pystr) : bool :=
  match key with
  | Some (_ :: _) => true
  | _ => false
  end.

(** [startup_event], from the value of the environment variable and the
    names as bound so far to the names as bound afterwards. Every
    exception is logged and raised again, so the [try] changes nothing but
    the log; the answer of the connection test is only logged, with or
    without the error mark in it. *)
Definition startup_event (key : option pystr) (lib : pipeline_classes)
    (names : gmap pystr agent) : result unit * gmap pystr agent :=
  if negb (key_configured key)
  then (Raise (Exception (lit "OPENAI_API_KEY is required")), names) else
  match OpenAIClient lib with
  | Raise e => (Raise e, names)
  | Ok client =>
  let names := <[lit "client" := client]> names in
  match EnhancedPDFProcessor lib with
  | Raise e => (Raise e, names)
  | Ok a =>
  let names := <[lit "pdf_processor" := a]> names in
  match SummaryAgent lib client with
  | Raise e => (Raise e, names)
  | Ok a =>
  let names := <[lit "summary_agent" := a]> names in
  match FlashcardAgent lib client with
  | Raise e => (Raise e, names)
  | Ok a =>
  let names := <[lit "flashcard_agent" := a]> names in
  match QuizAgent lib client with
  | Raise e => (Raise e, names)
  | Ok a =>
  let names := <[lit "quiz_agent" := a]> names in
  match EnhancedResearchDiscoveryAgent lib client with
  | Raise e => (Raise e, names)
  | Ok a =>
  let names := <[lit "research_agent" := a]> names in
  match YouTubeDiscoveryAgent lib client with
  | Raise e => (Raise e, names)
  | Ok a =>
  let names := <[lit "youtube_agent" := a]> names in
  match WebResourceAgent lib client with
  | Raise e => (Raise e, names)
  | Ok a =>
  let names := <[lit "web_agent" := a]> names in
  match test_connection lib client with
  | Raise e => (Raise e, names)
  | Ok test_response => (Ok tt, names)
  end end end end end end end end end.

(** The truth value of a module-level name: [None] is false. *)
Definition name_truthy (names : gmap pystr agent) (name : pystr) : bool :=
  match names !! name with
  | Some a => truthy a
  | None => false
  end.

(** [health_check], given the module-level names and the value of the
    environment variable. *)
Definition health_check (names : gmap pystr agent) (key : option pystr) : M pydict :=
  fun _ w =>
    let agents_initialized := forallb (name_truthy names) agent_names in
    let health_status :=
      [(lit "status", JStr (lit "healthy"));
       (lit "agents_initialized", JBool agents_initialized);
       (lit "openai_key_configured", JBool (key_configured key));
       (lit "active_sessions", JInt (Z.of_nat (size (study_sessions w))))] in
    if negb agents_initialized
    then (Raise (HTTPException 503 (lit "Agents not properly initialized")), w)
    else (Ok health_status, w).

End Startup.

Definition root : M pydict :=
  ret [(lit "message", JStr (lit "AI Study Assistant API"));
       (lit "version", JStr (lit "1.0.0"));
       (lit "status", JStr (lit "running"))].

(** ** Further observations of a run *)

(** The str an agent returned for an offloaded call, if it returned one. *)
Definition returned_str (a : collaborators) (c : call) : option pystr :=
  match c with
  | summary_generate_summary t => value_of (summary_agent_generate a t)
  | chat_completion m x y => value_of (client_chat_completion a m x y)
  | _ => None
  end.

(** An offloaded call of the run came back in time with the str [v]. *)
Definition call_returned_str {A} (m : M A) (env : environment) (w : world) (v : pystr) : Prop :=
  exists c a, (c, a) ∈ asked m env w /\ returned_str a c = Some v.

(** The only exceptions a response can be are [HTTPException]s with one
    of the given status codes. *)
Definition raises_only {A} (codes : list Z) (r : result A) : Prop :=
  match r with
  | Ok _ => True
  | Raise (HTTPException status_code _) => status_code ∈ codes
  | Raise _ => False
  end.

(** The deadline each kind of offloaded work is given. *)
Definition deadline (c : call) : Z :=
  match c with
  | extract_text_with_ocr _ => 120
  | summary_generate_summary _ => 90
  | generate_flashcards_structured _ _ => 120
  | generate_quiz_structured _ _ => 120
  | find_papers _ _ => 180
  | extract_smart_keywords_and_topic _ => 45
  | find_videos _ _ _ => 150
  | find_resources _ _ _ => 150
  | chat_completion _ _ _ => 60
  end.

(** The environment [env] with the answers of [os.path.exists] and
    [os.unlink] replaced. *)
Definition with_cleanup (there : path -> bool) (unlink : path -> result unit)
    (env : environment) : environment :=
  {| agents := fun tr =>
       let a := agents env tr in
       {| upload_read := upload_read a;
          tempfile_create := tempfile_create a;
          path_exists := there;
          path_unlink := unlink;
          pdf_processor_extract := pdf_processor_extract a;
          summary_agent_generate := summary_agent_generate a;
          flashcard_agent_generate := flashcard_agent_generate a;
          quiz_agent_generate := quiz_agent_generate a;
          research_agent_find_papers := research_agent_find_papers a;
          research_agent_keywords := research_agent_keywords a;
          youtube_agent_find_videos := youtube_agent_find_videos a;
          web_agent_find_resources := web_agent_find_resources a;
          client_chat_completion := client_chat_completion a |};
     others := others env;
     str_of_exn := str_of_exn env |}.

(** The session [upload_pdf] stores for a file name, a body and an
    extraction result. *)
Definition stored_session (file_name : pystr) (content : bytes) (r : extraction) : session :=
  {| text := x_text r;
     file_info := lit "File: " ++ file_name ++ lit " (" ++ format_mb (len content) ++ lit " MB)";
     processing_result := r;
     filename := file_name |}.

(** The other requests write like [upload_pdf]: under "default" only. *)
Definition others_upload_like (env : environment) : Prop :=
  forall tr k s, store_put k s ∈ others env tr -> k = lit "default".

(** The store holds nothing but, possibly, the session "default". *)
Definition single_slot (m : gmap pystr session) : Prop :=
  forall k, k <> lit "default" -> m !! k = None.

(** ** More sample data *)

(** Agents for an upload: the body, the temporary file, the extraction and
    the cleanup answer as given; the other agents time out. *)
Definition upload_agents (body : result bytes) (temp : result path)
    (extract : result extraction) (there : bool) (unlink : result unit) : collaborators :=
  {| upload_read := body;
     tempfile_create := fun _ => temp;
     path_exists := fun _ => there;
     path_unlink := fun _ => unlink;
     pdf_processor_extract := fun _ => extract;
     summary_agent_generate := fun _ => Raise TimeoutError;
     flashcard_agent_generate := fun _ _ => Raise TimeoutError;
     quiz_agent_generate := fun _ _ => Raise TimeoutError;
     research_agent_find_papers := fun _ _ => Raise TimeoutError;
     research_agent_keywords := fun _ => Raise TimeoutError;
     youtube_agent_find_videos := fun _ _ _ => Raise TimeoutError;
     web_agent_find_resources := fun _ _ _ => Raise TimeoutError;
     client_chat_completion := fun _ _ _ => Raise TimeoutError |}.

Definition pdf_body : bytes := [Byte.x25; Byte.x50; Byte.x44; Byte.x46].
Definition temp_path : path := lit "/tmp/tmpab12.pdf".

Definition lecture_text : pystr :=
  lit "Graphs and trees are the two structures this lecture is about in detail".

Definition lecture : extraction := sample_extraction lecture_text 2.

Definition lecture_upload : UploadFile := mkUploadFile (Some (lit "Lecture.pdf")).

(** Agents that answer with a list of one item where a list is expected
    and with a plain str where a str is expected. *)
Definition helpful_agents : collaborators :=
  {| upload_read := Ok pdf_body;
     tempfile_create := fun _ => Ok temp_path;
     path_exists := fun _ => true;
     path_unlink := fun _ => Ok tt;
     pdf_processor_extract := fun _ => Ok lecture;
     summary_agent_generate := fun _ => Ok (lit "A short summary.");
     flashcard_agent_generate := fun _ _ => Ok [one_item];
     quiz_agent_generate := fun _ _ => Ok [one_item];
     research_agent_find_papers := fun _ _ => Ok [one_item];
     research_agent_keywords := fun _ => Ok (lit "graphs", [lit "trees"], [lit "trees"; lit "paths"]);
     youtube_agent_find_videos := fun _ _ _ => Ok [one_item];
     web_agent_find_resources := fun _ _ _ => Ok [one_item];
     client_chat_completion := fun _ _ _ => Ok (lit "Yes.") |}.

Definition failed_extraction : extraction :=
  {| x_status := lit "error";
     x_message := lit "Cannot open the file";
     x_text := [];
     x_word_count := 0;
     x_page_count := 0;
     x_methods_used := [] |}.

(** Every offloaded call of the run was given the deadline of its kind. *)
Definition on_deadline {A} (m : M A) (env : environment) (w : world) : Prop :=
  Forall (fun ct => ct.2 = deadline ct.1) (offloaded (new_events m env w)).

(** The upload of [file] went through: its name is [name], its body
    [content], and the extraction returned [r] with a status other than
    "error" and at least ten words. *)
Definition upload_accepted (file : UploadFile) (env : environment) (w : world)
    (name : pystr) (content : bytes) (r : extraction) : Prop :=
  upload_filename file = Some name /\
  upload_read (agents env (trace w)) = Ok content /\
  extraction_returned (upload_pdf file) env w r /\
  x_status r <> lit "error" /\
  10 <= x_word_count r.

(** A [pipeline] whose constructors and connection test all return, the
    agents being objects without further structure. *)
Definition working_pipeline : @pipeline_classes unit :=
  {| OpenAIClient := Ok tt;
     EnhancedPDFProcessor := Ok tt;
     SummaryAgent := fun _ => Ok tt;
     FlashcardAgent := fun _ => Ok tt;
     QuizAgent := fun _ => Ok tt;
     EnhancedResearchDiscoveryAgent := fun _ => Ok tt;
     YouTubeDiscoveryAgent := fun _ => Ok tt;
     WebResourceAgent := fun _ => Ok tt;
     test_connection := fun _ => Ok (lit "OK") |}.

Definition started_names : gmap pystr unit :=
  (startup_event (Some (lit "sk-test")) working_pipeline ∅).2.

(** Agents whose keyword extraction returns and whose every other call
    raises. *)
Definition broken_search_agents : collaborators :=
  {| upload_read := Ok pdf_body;
     tempfile_create := fun _ => Ok temp_path;
     path_exists := fun _ => true;
     path_unlink := fun _ => Ok tt;
     pdf_processor_extract := fun _ => Raise (Exception (lit "connection refused"));
     summary_agent_generate := fun _ => Raise (Exception (lit "connection refused"));
     flashcard_agent_generate := fun _ _ => Raise (Exception (lit "connection refused"));
     quiz_agent_generate := fun _ _ => Raise (Exception (lit "connection refused"));
     research_agent_find_papers := fun _ _ => Raise (Exception (lit "connection refused"));
     research_agent_keywords := fun _ => Ok (lit "graphs", [lit "trees"], [lit "trees"]);
     youtube_agent_find_videos := fun _ _ _ => Raise (Exception (lit "connection refused"));
     web_agent_find_resources := fun _ _ _ => Raise (Exception (lit "connection refused"));
     client_chat_completion := fun _ _ _ => Raise (Exception (lit "connection refused")) |}.
(** * Properties *)

Arguments lit : simpl never.
Arguments truncate : simpl never.
Arguments basic_summary : simpl never.
Arguments question_prompt : simpl never.
Arguments len : simpl never.
Arguments slice_to : simpl never.
Arguments startswith : simpl never.

Ltac unfold_monad :=
  unfold extraction_returned, call_failed, asked, counts_passed,
    not_found_untouched, leaves_store, new_events, response, after,
    try_except, try_finally, attempt, reraise, wait_for, await, system, suspend,
    contains, getitem, setitem, delitem, str_exn,
    mbind, M_bind, bind, mret, M_ret, ret, raise in *.

Example format_mb_tie : format_mb 131072 = lit "0.12".
Proof. reflexivity. Qed.

Example split_counts_words :
  len (split (lit "  two
 words ")) = 2.
Proof. reflexivity. Qed.

Lemma contains_absent (m : gmap pystr session) (k : pystr) :
  m !! k = None -> bool_decide (is_Some (m !! k)) = false.
Proof.
  intros H. rewrite H. apply bool_decide_eq_false. intros [x Hx]. discriminate.
Qed.

Lemma contains_present (m : gmap pystr session) (k : pystr) (s : session) :
  m !! k = Some s -> bool_decide (is_Some (m !! k)) = true.
Proof.
  intros H. rewrite H. apply bool_decide_eq_true. eauto.
Qed.

(** Without a session every session handler raises [no_document] at once. *)
Lemma absent_session_raises (env : environment) (w : world) (session_id : pystr) (n : Z) :
  study_sessions w !! session_id = None ->
  generate_summary session_id env w = (Raise no_document, w) /\
  generate_flashcards session_id n env w = (Raise no_document, w) /\
  generate_quiz session_id n env w = (Raise no_document, w) /\
  discover_research session_id n env w = (Raise no_document, w) /\
  discover_videos session_id n env w = (Raise no_document, w) /\
  discover_resources session_id n env w = (Raise no_document, w).
Proof.
  intros H.
  unfold generate_summary, generate_flashcards, generate_quiz,
    discover_research, discover_videos, discover_resources.
  unfold_monad.
  rewrite (contains_absent _ _ H). simpl. auto 10.
Qed.

(** C5. A generation or discovery request whose session identifier is not
    in [study_sessions] is answered with the 404 exception, and the world is
    left as it was: nothing is appended to the trace, so no agent is
    called, and the store is not written. *)
Theorem missing_session_is_404 (env : environment) (w : world) (session_id : pystr) (n : Z) :
  study_sessions w !! session_id = None ->
  not_found_untouched (generate_summary session_id) env w /\
  not_found_untouched (generate_flashcards session_id n) env w /\
  not_found_untouched (generate_quiz session_id n) env w /\
  not_found_untouched (discover_research session_id n) env w /\
  not_found_untouched (discover_videos session_id n) env w /\
  not_found_untouched (discover_resources session_id n) env w.
Proof.
  intros H. unfold not_found_untouched, new_events, response, after.
  destruct (absent_session_raises env w session_id n H) as (-> & -> & -> & -> & -> & ->).
  cbn. rewrite drop_all. auto 20.
Qed.

Lemma drop_own_prefix (tr evs : list event) : drop (length tr) (tr ++ evs) = evs.
Proof. apply drop_app_length. Qed.

Lemma drop_self (tr : list event) : drop (length tr) tr = [].
Proof. apply drop_all. Qed.

(** The inline truncation of the handlers meets the specification's
    wording. *)
Lemma truncate_meets_spec (text : pystr) (budget : Z) :
  0 <= budget -> truncation_spec budget text (truncate text budget).
Proof.
  intros Hb. unfold truncation_spec, truncate. split.
  - intros Hlong.
    destruct (len text >? budget) eqn:E; [| lia].
    split; [reflexivity |].
    unfold len, slice_to in *. rewrite length_app, length_take.
    change (length ellipsis) with 3%nat. change (length (lit "...")) with 3%nat. lia.
  - intros Hshort.
    destruct (len text >? budget) eqn:E; [lia | reflexivity].
Qed.


Ltac unfold_handlers :=
  unfold upload_pdf, cleanup_temp_file, generate_summary, generate_flashcards, generate_quiz,
    discover_research, discover_videos, discover_resources, ask_question,
    clear_session, get_session_info in *.

(** Entering a session handler whose session [Hs] is in the store: the
    membership test and the first read of the store succeed. *)
Ltac enter Hs :=
  unfold_handlers; unfold_monad; cbn;
  rewrite ?(contains_present _ _ _ Hs); cbn;
  rewrite ?Hs; cbn.

Ltac first_event :=
  repeat (case_match; simplify_eq; cbn);
  rewrite <- ?app_assoc; rewrite ?drop_own_prefix; cbn.


Example discover_research_passes_negative :
  counts_passed (discover_research default_id (-3)) (steady quick_agents)
    (world_with short_session) = [-3].
Proof. vm_compute. reflexivity. Qed.

Ltac cases :=
  repeat (case_match; cbn in *; simplify_eq; cbn in *);
  rewrite <- ?app_assoc; rewrite ?drop_own_prefix, ?drop_self; cbn.

(** C2, as stated, fails for the discovery handlers: they cap the count
    from above only. [discover_research] asked for -3 papers passes -3 to
    the agent, and no closed range makes it a clamp. *)
Lemma discovery_count_has_no_lower_bound :
  counts_passed (discover_research default_id (-3)) (steady quick_agents)
    (world_with short_session) = [-3] /\
  ~ exists lo hi, lo <= hi /\ clamps_into discover_research lo hi.
Proof.
  split; [vm_compute; reflexivity |].
  intros (lo & hi & Hle & Hclamp).
  assert (Hs : study_sessions (world_with short_session) !! default_id = Some short_session)
    by (vm_compute; reflexivity).
  destruct (Hclamp (steady quick_agents) (world_with short_session) default_id short_session
              (Z.min (lo - 1) 15) (Z.min (lo - 1) 15) Hs) as [Hlow _].
  - enter Hs.
    destruct (Z.min (lo - 1) 15 >? 15) eqn:E; [lia |].
    cbn. apply list_elem_of_singleton. reflexivity.
  - lia.
Qed.

(** C2, amended. Flashcards and quiz clamp the requested count into
    [1, 20] and [1, 15]: a value outside is replaced by the nearest bound,
    a value inside is kept, and the agent is called with the result. The
    three discovery handlers cap the count at 15, 12 and 15 and have no
    lower bound: any value up to the cap, zero and negative ones included,
    is passed unchanged. The summary passes no count. *)
Theorem counts_are_limited (env : environment) (w : world) (session_id : pystr)
    (s : session) (n : Z) :
  study_sessions w !! session_id = Some s ->
  (exists k, counts_passed (generate_flashcards session_id n) env w = [k] /\
             clamping_spec 1 20 n k /\ (1 <= n <= 20 -> k = n)) /\
  (exists k, counts_passed (generate_quiz session_id n) env w = [k] /\
             clamping_spec 1 15 n k /\ (1 <= n <= 15 -> k = n)) /\
  counts_passed (discover_research session_id n) env w = [Z.min n 15] /\
  (forall k, k ∈ counts_passed (discover_videos session_id n) env w -> k = Z.min n 12) /\
  (forall kw, research_agent_keywords (agents env (trace w)) (truncate (text s) 3000) = Ok kw ->
     counts_passed (discover_videos session_id n) env w = [Z.min n 12]) /\
  (forall k, k ∈ counts_passed (discover_resources session_id n) env w -> k = Z.min n 15) /\
  (forall kw, research_agent_keywords (agents env (trace w)) (truncate (text s) 3000) = Ok kw ->
     counts_passed (discover_resources session_id n) env w = [Z.min n 15]) /\
  counts_passed (generate_summary session_id) env w = [].
Proof.
  intros Hs. repeat apply conj.
  - exists (if (n <? 1) || (n >? 20) then Z.min (Z.max n 1) 20 else n).
    split; [enter Hs; cases; reflexivity |].
    unfold clamping_spec. destruct (n <? 1) eqn:E1, (n >? 20) eqn:E2; cbn; lia.
  - exists (if (n <? 1) || (n >? 15) then Z.min (Z.max n 1) 15 else n).
    split; [enter Hs; cases; reflexivity |].
    unfold clamping_spec. destruct (n <? 1) eqn:E1, (n >? 15) eqn:E2; cbn; lia.
  - enter Hs; cases; f_equal; lia.
  - intros k. enter Hs. cases; intros Hk.
    all: try (apply list_elem_of_singleton in Hk; lia).
    all: by apply elem_of_nil in Hk.
  - intros kw Hkw. enter Hs. rewrite Hkw. cases; f_equal; lia.
  - intros k. enter Hs. cases; intros Hk.
    all: try (apply list_elem_of_singleton in Hk; lia).
    all: by apply elem_of_nil in Hk.
  - intros kw Hkw. enter Hs. rewrite Hkw. cases; f_equal; lia.
  - enter Hs; cases; reflexivity.
Qed.

(** Reading off which call a hypothesis about the [asked] calls of a run
    speaks about; the cases in which that call answered otherwise close. *)
Ltac which_call H :=
  let c := fresh "c" in
  let a := fresh "a" in
  let Hin := fresh "Hin" in
  let Hans := fresh "Hans" in
  destruct H as (c & a & Hin & Hans);
  rewrite <- ?app_assoc in *; cbn in *;
  rewrite ?drop_own_prefix, ?drop_self in Hin; cbn in Hin;
  repeat (apply elem_of_cons in Hin; destruct Hin as [Hin | Hin]);
  try (by apply elem_of_nil in Hin);
  simplify_eq; cbn in Hans;
  repeat match goal with
         | E : ?x = _, F : context [?x] |- _ => rewrite E in F; cbn in F
         end;
  simplify_eq.

(** The count [generate_flashcards] and [generate_quiz] pass on. *)
Lemma clamp_is_min_max (n hi : Z) :
  (if (n <? 1) || (n >? hi) then Z.min (Z.max n 1) hi else n) = Z.min (Z.max n 1) hi.
Proof. destruct (n <? 1) eqn:E1, (n >? hi) eqn:E2; cbn; lia. Qed.

(** The count the discovery handlers pass on. *)
Lemma cap_is_min (n hi : Z) : (if n >? hi then hi else n) = Z.min n hi.
Proof. destruct (n >? hi) eqn:E; lia. Qed.

(** Entering a handler and writing the count it passes on as a minimum. *)
Ltac enter_with Hs :=
  enter Hs; rewrite ?clamp_is_min_max, ?cap_is_min.

(** C1, as stated, fails for the summary: its placeholder is built from
    the stored document. Two sessions whose texts have three and two words
    and whose page counts are 1 and 7 get different summaries when the
    summary agent times out. *)
Lemma summary_placeholder_follows_document :
  response (generate_summary default_id) (steady slow_agents)
    (world_with (sample_session (lit "one two three") 1))
    = Ok (mkSummaryResponse (basic_summary 3 1) success) /\
  response (generate_summary default_id) (steady slow_agents)
    (world_with (sample_session (lit "one two") 7))
    = Ok (mkSummaryResponse (basic_summary 2 7) success) /\
  basic_summary 3 1 <> basic_summary 2 7.
Proof.
  split; [vm_compute; reflexivity |].
  split; [vm_compute; reflexivity |].
  vm_compute. discriminate.
Qed.

(** C1, amended. When the agent's call times out, flashcards and quiz
    answer with success and a fixed one-item placeholder, whatever the
    document, the store and the requested count. The summary answers with
    success and a text built from a fixed template and two numbers read
    from the session as it is stored when the handler resumes: the number
    of whitespace-separated words of its text and its page count; when the
    session is gone by then, the answer is the 408 exception. The timeout
    is the answer of the environment to the call the handler makes: the
    agent asked with the cut text and the clamped count. *)
Theorem timeout_placeholders (env : environment) (w : world) (session_id : pystr)
    (s : session) (n : Z) :
  study_sessions w !! session_id = Some s ->
  (flashcard_agent_generate (agents env (trace w)) (truncate (text s) 6000)
     (Z.min (Z.max n 1) 20) = Raise TimeoutError ->
     response (generate_flashcards session_id n) env w
       = Ok (FlashcardResponse basic_flashcards_timeout 1 success)) /\
  (quiz_agent_generate (agents env (trace w)) (truncate (text s) 6000)
     (Z.min (Z.max n 1) 15) = Raise TimeoutError ->
     response (generate_quiz session_id n) env w
       = Ok (QuizResponse basic_quiz_timeout 1 success)) /\
  (summary_agent_generate (agents env (trace w)) (truncate (text s) 8000)
     = Raise TimeoutError ->
     response (generate_summary session_id) env w =
       match study_sessions (after (generate_summary session_id) env w) !! session_id with
       | Some s' =>
           Ok (mkSummaryResponse
                 (basic_summary (len (split (text s')))
                    (x_page_count (processing_result s')))
                 success)
       | None =>
           Raise (HTTPException 408
             (lit "Summary generation timeout. Please try again with a smaller document."))
       end).
Proof.
  intros Hs. repeat apply conj; intros Htimeout.
  - enter_with Hs. rewrite Htimeout. reflexivity.
  - enter_with Hs. rewrite Htimeout. reflexivity.
  - enter_with Hs. rewrite Htimeout. cbn. cases; reflexivity.
Qed.

(** C3. On an existing session the three discovery handlers never answer
    with an error: the response is a success. When the agent asked by the
    handler runs out of time or raises any exception, the response carries
    the empty list and count 0: the paper search for [discover_research];
    for [discover_videos] and [discover_resources] the keyword extraction
    or, when that returned, the search made with its topic and keywords. *)
Theorem discovery_degrades_to_empty (env : environment) (w : world) (session_id : pystr)
    (s : session) (n : Z) (e : exn) :
  study_sessions w !! session_id = Some s ->
  let keywords := extract_smart_keywords_and_topic (truncate (text s) 3000) in
  let after_keywords := agents env (trace w ++ [wait_for_to_thread keywords 45]) in
  (research_agent_find_papers (agents env (trace w)) (truncate (text s) 4000) (Z.min n 15)
     = Raise e ->
     empty_success (response (discover_research session_id n) env w)) /\
  (research_agent_keywords (agents env (trace w)) (truncate (text s) 3000) = Raise e ->
     empty_success (response (discover_videos session_id n) env w) /\
     empty_success (response (discover_resources session_id n) env w)) /\
  (forall topic research_keywords all_keywords,
     research_agent_keywords (agents env (trace w)) (truncate (text s) 3000)
       = Ok (topic, research_keywords, all_keywords) ->
     (youtube_agent_find_videos after_keywords research_keywords topic (Z.min n 12)
        = Raise e ->
        empty_success (response (discover_videos session_id n) env w)) /\
     (web_agent_find_resources after_keywords research_keywords topic (Z.min n 15)
        = Raise e ->
        empty_success (response (discover_resources session_id n) env w))) /\
  (exists resp, response (discover_research session_id n) env w = Ok resp /\
                status resp = success) /\
  (exists resp, response (discover_videos session_id n) env w = Ok resp /\
                status resp = success) /\
  (exists resp, response (discover_resources session_id n) env w = Ok resp /\
                status resp = success).
Proof.
  intros Hs. cbn zeta. unfold empty_success. repeat apply conj.
  - intros Hfail. enter_with Hs. rewrite Hfail. cbn.
    destruct e; cbn; eexists; repeat split; reflexivity.
  - intros Hfail. split; enter_with Hs; rewrite Hfail; cbn;
      destruct e; cbn; eexists; repeat split; reflexivity.
  - intros topic research_keywords all_keywords Hkw. split; intros Hfail.
    all: enter_with Hs; rewrite Hkw; cbn; rewrite Hfail; cbn.
    all: destruct e; cbn; eexists; repeat split; reflexivity.
  - enter Hs; cases; eexists; split; reflexivity.
  - enter Hs; cases; eexists; split; reflexivity.
  - enter Hs; cases; eexists; split; reflexivity.
Qed.

(** C9. Every response of the flashcards, quiz, research-papers, videos
    and web-resources handlers has its count field equal to the length of
    the list it carries, whether the list came from the agent, from the
    static fallback of an empty result, from the timeout fallback or from
    the exception fallback. *)
Theorem count_is_length (env : environment) (w : world) (session_id : pystr) (n : Z) :
  count_matches (response (generate_flashcards session_id n) env w) /\
  count_matches (response (generate_quiz session_id n) env w) /\
  count_matches (response (discover_research session_id n) env w) /\
  count_matches (response (discover_videos session_id n) env w) /\
  count_matches (response (discover_resources session_id n) env w).
Proof.
  destruct (study_sessions w !! session_id) as [s |] eqn:Hs.
  - repeat apply conj; enter Hs; cases; done.
  - unfold response.
    destruct (absent_session_raises env w session_id n Hs) as (_ & -> & -> & -> & -> & ->).
    cbn. auto.
Qed.

(** C10. When the flashcard or quiz agent, asked with the cut text and
    the clamped count, comes back in time with an empty list, the handler
    answers with success and a fixed two-item payload. Together with the
    one-item timeout payload this means that on an existing session neither
    handler ever returns an empty list: every response that is not an
    exception carries at least one item. *)
Theorem empty_result_gets_static_payload (env : environment) (w : world)
    (session_id : pystr) (s : session) (n : Z) :
  study_sessions w !! session_id = Some s ->
  (flashcard_agent_generate (agents env (trace w)) (truncate (text s) 6000)
     (Z.min (Z.max n 1) 20) = Ok [] ->
     response (generate_flashcards session_id n) env w
       = Ok (FlashcardResponse basic_flashcards 2 success)) /\
  (quiz_agent_generate (agents env (trace w)) (truncate (text s) 6000)
     (Z.min (Z.max n 1) 15) = Ok [] ->
     response (generate_quiz session_id n) env w
       = Ok (QuizResponse basic_quiz 2 success)) /\
  (forall resp, response (generate_flashcards session_id n) env w = Ok resp ->
     items resp <> [] /\ status resp = success) /\
  (forall resp, response (generate_quiz session_id n) env w = Ok resp ->
     items resp <> [] /\ status resp = success).
Proof.
  intros Hs. repeat apply conj.
  1-2: intros Hempty; enter_with Hs; rewrite Hempty; reflexivity.
  all: intros resp; enter Hs; cases; intros Hresp; simplify_eq; cbn; split; done.
Qed.

(** C8, as stated, fails: [discover_videos] is suspended twice when the
    keyword extraction returns, once on it and once on the video search,
    and [clear_session] is never suspended. *)
Lemma discover_videos_awaits_twice :
  new_events (discover_videos default_id 10) (steady quick_agents) (world_with short_session)
    = [wait_for_to_thread (extract_smart_keywords_and_topic (lit "one two three")) 45;
       wait_for_to_thread (find_videos [lit "trees"] (lit "graphs") 10) 150] /\
  suspensions (new_events (discover_videos default_id 10) (steady quick_agents)
                 (world_with short_session)) = 2%nat /\
  suspensions (new_events (clear_session default_id) (steady quick_agents)
                 (world_with short_session)) = 0%nat.
Proof. vm_compute. auto. Qed.

(** C8, amended. The number of suspension points of a request depends on
    the handler and on the path taken. Summary, flashcards, quiz and
    research papers are suspended once, on their one offloaded call, when
    the session exists and not at all otherwise; question answering once
    when question and document are not blank; videos and web resources
    once when the keyword extraction fails and twice when it returns;
    clear-session and session-info never. The upload is suspended at most
    twice: on reading the body and on the text extraction. *)
Theorem suspension_points (env : environment) (w : world) (session_id : pystr) (n : Z)
    (request : QuestionRequest) (file : UploadFile) :
  let once_if_session :=
    match study_sessions w !! session_id with Some _ => 1%nat | None => 0%nat end in
  let twice_if_keywords :=
    match study_sessions w !! session_id with
    | Some s =>
        match research_agent_keywords (agents env (trace w)) (truncate (text s) 3000) with
        | Ok _ => 2%nat
        | Raise _ => 1%nat
        end
    | None => 0%nat
    end in
  suspensions (new_events (generate_summary session_id) env w) = once_if_session /\
  suspensions (new_events (generate_flashcards session_id n) env w) = once_if_session /\
  suspensions (new_events (generate_quiz session_id n) env w) = once_if_session /\
  suspensions (new_events (discover_research session_id n) env w) = once_if_session /\
  suspensions (new_events (discover_videos session_id n) env w) = twice_if_keywords /\
  suspensions (new_events (discover_resources session_id n) env w) = twice_if_keywords /\
  suspensions (new_events (ask_question request) env w)
    = match strip (question request), strip (document_text request) with
      | _ :: _, _ :: _ => 1%nat
      | _, _ => 0%nat
      end /\
  suspensions (new_events (clear_session session_id) env w) = 0%nat /\
  suspensions (new_events (get_session_info session_id) env w) = 0%nat /\
  (suspensions (new_events (upload_pdf file) env w) <= 2)%nat.
Proof.
  cbn zeta.
  destruct (study_sessions w !! session_id) as [s |] eqn:Hs.
  - repeat apply conj.
    1-6, 8-9: enter Hs; cases; reflexivity.
    + unfold_handlers; unfold_monad; cases; reflexivity.
    + unfold_handlers; unfold_monad; cases; lia.
  - repeat apply conj.
    1-6: unfold new_events, after.
    1-6: destruct (absent_session_raises env w session_id n Hs) as (E1 & E2 & E3 & E4 & E5 & E6).
    1-6: rewrite ?E1, ?E2, ?E3, ?E4, ?E5, ?E6; cbn; rewrite drop_all; reflexivity.
    1-3: unfold_handlers; unfold_monad; cbn;
         rewrite ?(contains_absent _ _ Hs); cases; reflexivity.
    unfold_handlers; unfold_monad; cases; lia.
Qed.

Lemma pystr_eqb_eq (a b : pystr) : pystr_eqb a b = true <-> a = b.
Proof.
  revert b. induction a as [| x a IH]; intros [| y b]; cbn; split; try done.
  - intros [Hxy Hab]%andb_prop. apply N.eqb_eq in Hxy. apply IH in Hab. congruence.
  - intros H. simplify_eq. rewrite N.eqb_refl. cbn. by apply IH.
Qed.

Lemma quiet_meanwhile (env : environment) (tr evs : list event) :
  quiet env -> meanwhile env tr evs = [].
Proof.
  intros Hq. revert tr. induction evs as [| ev evs IH]; intros tr; cbn; [done |].
  rewrite IH, Hq. by destruct (awaited ev).
Qed.

(** With no other request writing, a run that writes nothing of its own
    leaves the store as it was. *)
Lemma leaves_store_quiet {A} (m : M A) (env : environment) (w : world) :
  quiet env -> leaves_store m env w -> study_sessions (after m env w) = study_sessions w.
Proof.
  intros Hq H. rewrite H, quiet_meanwhile by assumption. reflexivity.
Qed.

Ltac frame :=
  unfold apply_ops; rewrite ?foldl_app; rewrite <- ?app_assoc; cbn; try reflexivity.

(** C6. When the text extraction of an upload comes back with a status
    other than "error" and fewer than ten words, the upload is answered
    with the 422 exception, which is none of the codes of the other
    failures (400, 408, 500), and nothing is stored: the store is as the
    other requests left it, hence as it was when no other request wrote in
    the meantime. *)
Theorem unreadable_upload_is_422 (env : environment) (w : world) (file : UploadFile)
    (r : extraction) :
  extraction_returned (upload_pdf file) env w r ->
  x_status r <> lit "error" ->
  x_word_count r < 10 ->
  response (upload_pdf file) env w
    = Raise (HTTPException 422
        (lit "Very little text could be extracted. PDF may be image-based, protected, or corrupted.")) /\
  leaves_store (upload_pdf file) env w /\
  (quiet env -> study_sessions (after (upload_pdf file) env w) = study_sessions w).
Proof.
  intros Hret Hstatus Hwords.
  cut (response (upload_pdf file) env w
         = Raise (HTTPException 422
             (lit "Very little text could be extracted. PDF may be image-based, protected, or corrupted.")) /\
       leaves_store (upload_pdf file) env w).
  { intros [H1 H2]. split; [exact H1 |]. split; [exact H2 |].
    intros Hq. by apply leaves_store_quiet. }
  revert Hret.
  unfold_handlers; unfold_monad; cases; intros Hret; which_call Hret.
  all: try match goal with
           | H : pystr_eqb _ _ = true |- _ => apply pystr_eqb_eq in H; contradiction
           end.
  all: try match goal with
           | H : (_ <? _) = false |- _ => apply Z.ltb_ge in H; lia
           end.
  all: split; [reflexivity | frame].
Qed.

(** An upload either writes nothing or sets the entry "default" after its
    suspensions. *)
Lemma upload_writes_default (env : environment) (w : world) (file : UploadFile) :
  leaves_store (upload_pdf file) env w \/
  exists s, study_sessions (after (upload_pdf file) env w)
            = <[lit "default" := s]>
                (apply_ops (meanwhile env (trace w) (new_events (upload_pdf file) env w))
                   (study_sessions w)).
Proof.
  unfold_handlers; unfold_monad; cases.
  all: first [ left; by frame | right; eexists; by frame ].
Qed.

(** C7. Every generation, discovery, question-answering and session-info
    request writes nothing to [study_sessions]: the store after the request
    is the store before it with only the other requests' writes applied,
    hence exactly the same store when no other request wrote in the
    meantime. In particular the text of every stored session stays what
    the upload put there, the truncation working on a local value. The
    store is written by [clear_session], which removes the entry of its
    session identifier, and by [upload_pdf], which either writes nothing or
    replaces the entry "default". *)
Theorem only_upload_and_clear_write (env : environment) (w : world) (session_id : pystr)
    (n : Z) (request : QuestionRequest) (file : UploadFile) :
  leaves_store (generate_summary session_id) env w /\
  leaves_store (generate_flashcards session_id n) env w /\
  leaves_store (generate_quiz session_id n) env w /\
  leaves_store (discover_research session_id n) env w /\
  leaves_store (discover_videos session_id n) env w /\
  leaves_store (discover_resources session_id n) env w /\
  leaves_store (ask_question request) env w /\
  leaves_store (get_session_info session_id) env w /\
  study_sessions (after (clear_session session_id) env w)
    = delete session_id (study_sessions w) /\
  (leaves_store (upload_pdf file) env w \/
   exists s, study_sessions (after (upload_pdf file) env w)
             = <[lit "default" := s]>
                 (apply_ops (meanwhile env (trace w) (new_events (upload_pdf file) env w))
                    (study_sessions w))).
Proof.
  destruct (study_sessions w !! session_id) as [s |] eqn:Hs.
  - repeat apply conj; [.. | by apply upload_writes_default].
    all: enter Hs; cases; by frame.
  - repeat apply conj; [.. | by apply upload_writes_default].
    1-6: unfold leaves_store, new_events, after.
    1-6: destruct (absent_session_raises env w session_id n Hs) as (E1 & E2 & E3 & E4 & E5 & E6).
    1-6: rewrite ?E1, ?E2, ?E3, ?E4, ?E5, ?E6; cbn; rewrite drop_all; reflexivity.
    all: unfold_handlers; unfold_monad; cbn; rewrite ?(contains_absent _ _ Hs); cases.
    all: try by frame.
    symmetry. by apply delete_id.
Qed.

(** ** The theorems at concrete inputs *)

Lemma steady_is_quiet (a : collaborators) : quiet (steady a).
Proof. intros tr. reflexivity. Defined.

(** C5 on the empty store. *)
Lemma missing_session_is_404_witness :
  study_sessions empty_world !! default_id = None /\
  not_found_untouched (generate_summary default_id) (steady quick_agents) empty_world /\
  not_found_untouched (discover_videos default_id 5) (steady quick_agents) empty_world.
Proof.
  assert (H : study_sessions empty_world !! default_id = None) by reflexivity.
  split; [exact H |].
  pose proof (missing_session_is_404 (steady quick_agents) empty_world default_id 5 H)
    as (H1 & _ & _ & _ & H5 & _).
  split; assumption.
Defined.


Lemma short_session_stored :
  study_sessions (world_with short_session) !! default_id = Some short_session.
Proof. vm_compute. reflexivity. Defined.

(** C1, amended, with agents that all time out. *)
Lemma timeout_placeholders_witness :
  response (generate_flashcards default_id 5) (steady slow_agents) (world_with short_session)
    = Ok (FlashcardResponse basic_flashcards_timeout 1 success) /\
  response (generate_quiz default_id 5) (steady slow_agents) (world_with short_session)
    = Ok (QuizResponse basic_quiz_timeout 1 success) /\
  response (generate_summary default_id) (steady slow_agents) (world_with short_session)
    = Ok (mkSummaryResponse (basic_summary 3 1) success).
Proof.
  pose proof (timeout_placeholders (steady slow_agents) (world_with short_session) default_id
                short_session 5 short_session_stored) as (H1 & H2 & H3).
  split; [exact (H1 eq_refl) |]. split; [exact (H2 eq_refl) |].
  rewrite (H3 eq_refl). vm_compute. reflexivity.
Defined.

(** C2, amended, for requested counts 50 and -3. *)
Lemma counts_are_limited_witness :
  counts_passed (generate_flashcards default_id 50) (steady quick_agents)
    (world_with short_session) = [20] /\
  counts_passed (discover_research default_id (-3)) (steady quick_agents)
    (world_with short_session) = [-3] /\
  counts_passed (discover_videos default_id 50) (steady quick_agents)
    (world_with short_session) = [12].
Proof.
  pose proof (counts_are_limited (steady quick_agents) (world_with short_session) default_id
                short_session 50 short_session_stored)
    as ((k & Hk & [_ Hhigh] & _) & _ & _ & _ & Hvideos & _).
  pose proof (counts_are_limited (steady quick_agents) (world_with short_session) default_id
                short_session (-3) short_session_stored)
    as (_ & _ & Hresearch & _).
  split; [rewrite Hk; f_equal; apply Hhigh; lia |].
  split; [exact Hresearch |].
  exact (Hvideos (lit "graphs", [lit "trees"], [lit "trees"]) eq_refl).
Defined.

(** C3 when every agent times out, and when the keyword extraction
    returns and the searches raise. *)
Lemma discovery_degrades_to_empty_witness :
  response (discover_research default_id 5) (steady slow_agents) (world_with short_session)
    = Ok (ResearchPapersResponse [] 0 success) /\
  response (discover_videos default_id 5) (steady slow_agents) (world_with short_session)
    = Ok (VideosResponse [] 0 success) /\
  response (discover_resources default_id 5) (steady slow_agents) (world_with short_session)
    = Ok (WebResourcesResponse [] 0 success) /\
  response (discover_research default_id 5) (steady broken_search_agents)
    (world_with short_session) = Ok (ResearchPapersResponse [] 0 success) /\
  response (discover_videos default_id 5) (steady broken_search_agents)
    (world_with short_session) = Ok (VideosResponse [] 0 success) /\
  response (discover_resources default_id 5) (steady broken_search_agents)
    (world_with short_session) = Ok (WebResourcesResponse [] 0 success).
Proof.
  pose proof (discovery_degrades_to_empty (steady slow_agents) (world_with short_session)
                default_id short_session 5 TimeoutError short_session_stored)
    as (H1 & H2 & _).
  pose proof (discovery_degrades_to_empty (steady broken_search_agents)
                (world_with short_session) default_id short_session 5
                (Exception (lit "connection refused")) short_session_stored)
    as (H4 & _ & H5 & _).
  destruct (H2 eq_refl) as [H2v H2r].
  destruct (H5 (lit "graphs") [lit "trees"] [lit "trees"] eq_refl) as [H5v H5r].
  assert (Hshape : forall (r : result ListResponse) (field : pystr),
            empty_success r ->
            (forall resp, r = Ok resp -> list_field resp = field) ->
            r = Ok (mkListResponse field [] 0 success)).
  { intros r field (resp & -> & Hitems & Hcount & Hstatus) Hfield.
    specialize (Hfield resp eq_refl). destruct resp; cbn in *. by subst. }
  repeat apply conj.
  - apply (Hshape _ _ (H1 eq_refl)). vm_compute. intros resp H. by injection H as <-.
  - apply (Hshape _ _ H2v). vm_compute. intros resp H. by injection H as <-.
  - apply (Hshape _ _ H2r). vm_compute. intros resp H. by injection H as <-.
  - apply (Hshape _ _ (H4 eq_refl)). vm_compute. intros resp H. by injection H as <-.
  - apply (Hshape _ _ (H5v eq_refl)). vm_compute. intros resp H. by injection H as <-.
  - apply (Hshape _ _ (H5r eq_refl)). vm_compute. intros resp H. by injection H as <-.
Defined.

(** C10 with agents that return the empty list. *)
Lemma empty_result_gets_static_payload_witness :
  response (generate_flashcards default_id 5) (steady quick_agents) (world_with short_session)
    = Ok (FlashcardResponse basic_flashcards 2 success) /\
  response (generate_quiz default_id 5) (steady quick_agents) (world_with short_session)
    = Ok (QuizResponse basic_quiz 2 success).
Proof.
  pose proof (empty_result_gets_static_payload (steady quick_agents)
                (world_with short_session) default_id short_session 5 short_session_stored)
    as (H1 & H2 & _).
  split; [exact (H1 eq_refl) | exact (H2 eq_refl)].
Defined.

(** C6 for an upload whose extraction yields one word. *)
Lemma unreadable_upload_is_422_witness :
  extraction_returned (upload_pdf scanned_upload) (steady quick_agents) empty_world
    (sample_extraction (lit "scan") 1) /\
  x_word_count (sample_extraction (lit "scan") 1) = 1 /\
  response (upload_pdf scanned_upload) (steady quick_agents) empty_world
    = Raise (HTTPException 422
        (lit "Very little text could be extracted. PDF may be image-based, protected, or corrupted.")) /\
  study_sessions (after (upload_pdf scanned_upload) (steady quick_agents) empty_world) = ∅.
Proof.
  assert (He : extraction_returned (upload_pdf scanned_upload) (steady quick_agents)
                 empty_world (sample_extraction (lit "scan") 1)).
  { exists (lit "/tmp/tmpab12.pdf"), quick_agents.
    split; [vm_compute; left | reflexivity]. }
  split; [exact He |]. split; [reflexivity |].
  destruct (unreadable_upload_is_422 (steady quick_agents) empty_world scanned_upload
              (sample_extraction (lit "scan") 1) He) as (H1 & _ & H3).
  - vm_compute. discriminate.
  - vm_compute. reflexivity.
  - split; [exact H1 | exact (H3 (steady_is_quiet quick_agents))].
Defined.

(** ** Further properties of the handlers *)

Example lecture_has_enough_words : x_word_count lecture = 13.
Proof. reflexivity. Qed.

(** [upload_pdf] answers 400 to a file without a name or whose name does
    not end in ".pdf" in any letter case, before reading the body: the
    world is as it was. *)
Theorem upload_rejects_other_names (env : environment) (w : world) (file : UploadFile) :
  (forall name, upload_filename file = Some name ->
     name = [] \/ endswith (lower name) (lit ".pdf") = false) ->
  upload_pdf file env w =
    (Raise (HTTPException 400
       match upload_filename file with
       | None | Some [] => lit "No filename provided"
       | Some _ => lit "Only PDF files are allowed"
       end), w).
Proof.
  intros Hname. unfold_handlers.
  destruct (upload_filename file) as [[| c name] |] eqn:E; try reflexivity.
  destruct (Hname _ eq_refl) as [H | H]; [discriminate |].
  rewrite H. reflexivity.
Qed.

Lemma upload_rejects_other_names_witness :
  upload_pdf (mkUploadFile (Some (lit "notes.txt"))) (steady helpful_agents) empty_world =
    (Raise (HTTPException 400 (lit "Only PDF files are allowed")), empty_world).
Proof.
  apply (upload_rejects_other_names (steady helpful_agents) empty_world
           (mkUploadFile (Some (lit "notes.txt")))).
  intros name H. right. cbn in H. injection H as <-. vm_compute. reflexivity.
Defined.

(** [upload_pdf] answers 400 to a body of more than 50 MB and to an empty
    body; it has then only read the body: no temporary file is made, the
    extraction is not called and the store is not written. *)
Theorem upload_rejects_bad_size (env : environment) (w : world) (file : UploadFile)
    (name : pystr) (content : bytes) :
  upload_filename file = Some name ->
  name <> [] ->
  endswith (lower name) (lit ".pdf") = true ->
  upload_read (agents env (trace w)) = Ok content ->
  len content > 50 * 1024 * 1024 \/ len content = 0 ->
  response (upload_pdf file) env w =
    Raise (HTTPException 400
      (if len content =? 0 then lit "Empty file uploaded"
       else lit "File too large. Maximum size is 50MB")) /\
  new_events (upload_pdf file) env w = [file_read] /\
  leaves_store (upload_pdf file) env w.
Proof.
  intros Hname Hne Hpdf Hread Hsize.
  destruct name as [| c name]; [done |].
  unfold_handlers. rewrite Hname, Hpdf. unfold_monad. cbn. rewrite Hread. cbn.
  cases; try lia.
  all: repeat split; frame.
Qed.

Lemma upload_rejects_bad_size_witness :
  response (upload_pdf lecture_upload)
    (steady (upload_agents (Ok []) (Ok temp_path) (Ok lecture) true (Ok tt))) empty_world
    = Raise (HTTPException 400 (lit "Empty file uploaded")).
Proof.
  apply (upload_rejects_bad_size
           (steady (upload_agents (Ok []) (Ok temp_path) (Ok lecture) true (Ok tt)))
           empty_world lecture_upload (lit "Lecture.pdf") []).
  - reflexivity.
  - vm_compute. discriminate.
  - vm_compute. reflexivity.
  - reflexivity.
  - right. reflexivity.
Defined.

(** What [upload_pdf] answers when the extraction does not return: 408
    after a timeout; an [HTTPException] raised by the extractor as it is;
    500 with the text of any other exception. In each case nothing is
    stored. *)
Theorem upload_extraction_failure (env : environment) (w : world) (file : UploadFile)
    (e : exn) :
  call_failed (upload_pdf file) env w e ->
  response (upload_pdf file) env w =
    Raise match e with
          | TimeoutError =>
              HTTPException 408
                (lit "PDF processing timeout. File may be too complex or large.")
          | HTTPException status_code detail => HTTPException status_code detail
          | _ => HTTPException 500 (lit "Processing failed: " ++ str_of_exn env e)
          end /\
  leaves_store (upload_pdf file) env w.
Proof.
  intros Hfail. revert Hfail.
  unfold_handlers; unfold_monad; cases; intros Hfail; which_call Hfail.
  all: split; [reflexivity | frame].
Qed.

Lemma upload_extraction_failure_witness :
  response (upload_pdf lecture_upload)
    (steady (upload_agents (Ok pdf_body) (Ok temp_path) (Raise TimeoutError) true (Ok tt)))
    empty_world
    = Raise (HTTPException 408
        (lit "PDF processing timeout. File may be too complex or large.")).
Proof.
  apply (upload_extraction_failure
           (steady (upload_agents (Ok pdf_body) (Ok temp_path) (Raise TimeoutError) true (Ok tt)))
           empty_world lecture_upload TimeoutError).
  exists (extract_text_with_ocr temp_path),
    (upload_agents (Ok pdf_body) (Ok temp_path) (Raise TimeoutError) true (Ok tt)).
  split; [vm_compute; left | reflexivity].
Defined.

(** When the extraction returns with status "error", [upload_pdf] answers
    400 with the extractor's message and stores nothing. *)
Theorem upload_reports_extraction_error (env : environment) (w : world) (file : UploadFile)
    (r : extraction) :
  extraction_returned (upload_pdf file) env w r ->
  x_status r = lit "error" ->
  response (upload_pdf file) env w = Raise (HTTPException 400 (x_message r)) /\
  leaves_store (upload_pdf file) env w.
Proof.
  intros Hret Hstatus. revert Hret.
  unfold_handlers; unfold_monad; cases; intros Hret; which_call Hret.
  all: try match goal with
           | H : pystr_eqb _ _ = false |- _ =>
               exfalso; apply not_true_iff_false in H; apply H; by apply pystr_eqb_eq
           end.
  all: split; [reflexivity | frame].
Qed.

Lemma upload_reports_extraction_error_witness :
  response (upload_pdf lecture_upload)
    (steady (upload_agents (Ok pdf_body) (Ok temp_path) (Ok failed_extraction) true (Ok tt)))
    empty_world
    = Raise (HTTPException 400 (lit "Cannot open the file")).
Proof.
  apply (upload_reports_extraction_error
           (steady (upload_agents (Ok pdf_body) (Ok temp_path) (Ok failed_extraction) true (Ok tt)))
           empty_world lecture_upload failed_extraction).
  - exists temp_path,
      (upload_agents (Ok pdf_body) (Ok temp_path) (Ok failed_extraction) true (Ok tt)).
    split; [vm_compute; left | reflexivity].
  - reflexivity.
Defined.

(** What an accepted upload answers and stores. *)
Lemma accepted_upload (env : environment) (w : world) (file : UploadFile)
    (name : pystr) (content : bytes) (r : extraction) :
  upload_accepted file env w name content r ->
  response (upload_pdf file) env w =
    Ok (mkProcessingStatus (x_status r) (x_message r) (x_word_count r)
          (x_page_count r) (x_methods_used r)) /\
  study_sessions (after (upload_pdf file) env w) =
    <[lit "default" := stored_session name content r]>
      (apply_ops (meanwhile env (trace w) (new_events (upload_pdf file) env w))
         (study_sessions w)).
Proof.
  intros (Hname & Hread & Hret & Hstatus & Hwords). revert Hret.
  unfold_handlers. rewrite Hname. unfold_monad. cbn.
  destruct name as [| c name]; cbn.
  { cases. intros Hret; which_call Hret. }
  cases; intros Hret; which_call Hret.
  all: try match goal with
           | H : pystr_eqb _ _ = true |- _ => apply pystr_eqb_eq in H; contradiction
           end.
  all: try match goal with
           | H : (_ <? _) = true |- _ => apply Z.ltb_lt in H; lia
           end.
  all: split; [reflexivity | unfold stored_session; by frame].
Qed.

(** When the extraction returns with a status other than "error" and at
    least ten words, [upload_pdf] answers with the extractor's status,
    message, counts and methods, and has put under "default" the session
    made of the extracted text, the file name, the size of the body and the
    whole extraction result, whatever was stored there before. *)
Theorem upload_stores_session (env : environment) (w : world) (file : UploadFile)
    (name : pystr) (content : bytes) (r : extraction) :
  upload_accepted file env w name content r ->
  response (upload_pdf file) env w =
    Ok (mkProcessingStatus (x_status r) (x_message r) (x_word_count r)
          (x_page_count r) (x_methods_used r)) /\
  study_sessions (after (upload_pdf file) env w) !! lit "default"
    = Some (stored_session name content r) /\
  (forall other, other <> lit "default" ->
     study_sessions (after (upload_pdf file) env w) !! other
       = apply_ops (meanwhile env (trace w) (new_events (upload_pdf file) env w))
           (study_sessions w) !! other).
Proof.
  intros Hacc. destruct (accepted_upload _ _ _ _ _ _ Hacc) as [H1 H2].
  split; [exact H1 |]. rewrite H2. split.
  - apply lookup_insert_eq.
  - intros other Hne. by apply lookup_insert_ne.
Qed.

(** The sample upload of the lecture is accepted. *)
Lemma lecture_upload_accepted :
  upload_accepted lecture_upload (steady helpful_agents) (world_with short_session)
    (lit "Lecture.pdf") pdf_body lecture.
Proof.
  repeat split.
  - exists temp_path, helpful_agents. split; [vm_compute; left | reflexivity].
  - vm_compute. discriminate.
  - vm_compute. discriminate.
Defined.

Lemma upload_stores_session_witness :
  response (upload_pdf lecture_upload) (steady helpful_agents) (world_with short_session)
    = Ok (mkProcessingStatus (lit "success") (lit "Text extracted") 13 2 [lit "pdfplumber"]) /\
  study_sessions (after (upload_pdf lecture_upload) (steady helpful_agents)
                    (world_with short_session)) !! lit "default"
    = Some (stored_session (lit "Lecture.pdf") pdf_body lecture).
Proof.
  destruct (upload_stores_session (steady helpful_agents) (world_with short_session)
              lecture_upload (lit "Lecture.pdf") pdf_body lecture
              lecture_upload_accepted) as (H1 & H2 & _).
  split; assumption.
Defined.



(** [upload_pdf] never lets a raw exception through once the body is
    read: whatever the temporary file, the extraction and the cleanup do,
    the caller sees a response or an [HTTPException]. The only other
    exception it can raise is the one raised by reading the body. *)
Theorem upload_raises_http_exceptions (env : environment) (w : world) (file : UploadFile) :
  match response (upload_pdf file) env w with
  | Ok _ | Raise (HTTPException _ _) => True
  | Raise e => upload_read (agents env (trace w)) = Raise e
  end.
Proof.
  unfold_handlers; unfold_monad; cases; done.
Qed.

(** The cleanup never raises and never writes the store. *)
Lemma cleanup_is_harmless (p : option path) (env : environment) (w : world) :
  exists w', cleanup_temp_file p env w = (Ok tt, w') /\
             study_sessions w' = study_sessions w.
Proof.
  unfold cleanup_temp_file. unfold_monad.
  destruct p as [[| c p] |]; cbn; eauto.
  destruct (path_exists _ _); cbn; eauto.
  destruct (path_unlink _ _) as [[] |]; cbn; eauto.
Qed.

Lemma finally_cleanup_keeps_answer {A} (body : M A) (p : option path)
    (env : environment) (w : world) :
  (try_finally body (cleanup_temp_file p) env w).1 = (body env w).1 /\
  study_sessions (try_finally body (cleanup_temp_file p) env w).2
    = study_sessions (body env w).2.
Proof.
  unfold try_finally. destruct (body env w) as [r w1]. cbn.
  destruct (cleanup_is_harmless p env w1) as (w2 & -> & H). auto.
Qed.

(** The answer of [upload_pdf] and what it stores do not depend on the
    cleanup: whether the temporary file is still there and whether
    removing it fails changes neither. *)
Theorem upload_answer_ignores_cleanup (env : environment) (w : world) (file : UploadFile)
    (there : path -> bool) (unlink : path -> result unit) :
  response (upload_pdf file) (with_cleanup there unlink env) w
    = response (upload_pdf file) env w /\
  study_sessions (after (upload_pdf file) (with_cleanup there unlink env) w)
    = study_sessions (after (upload_pdf file) env w).
Proof.
  unfold upload_pdf, response, after.
  destruct (upload_filename file) as [[| c name] |]; try done.
  destruct (negb (endswith _ _)); [done |].
  unfold mbind, M_bind, bind, await, attempt, system. cbn.
  destruct (upload_read _); [| done].
  destruct (_ >? _); [done |]. destruct (_ =? _); [done |].
  cbn.
  match goal with
  | |- (try_finally ?b1 (cleanup_temp_file ?p1) ?e1 ?w1).1
       = (try_finally ?b2 (cleanup_temp_file ?p2) ?e2 ?w2).1 /\ _ =>
      destruct (finally_cleanup_keeps_answer b1 p1 e1 w1) as [-> ->];
      destruct (finally_cleanup_keeps_answer b2 p2 e2 w2) as [-> ->]
  end.
  unfold with_cleanup; unfold_monad; cases; try done.
  all: rewrite <- ?app_assoc in *; cbn in *; congruence.
Qed.

(** [ask_question] answers 400 to a question or a document text that is
    empty or all white space, before anything else: no agent is called and
    the world is as it was. *)
Theorem ask_rejects_blank_input (env : environment) (w : world) (request : QuestionRequest) :
  strip (question request) = [] \/ strip (document_text request) = [] ->
  ask_question request env w =
    (Raise (HTTPException 400
       (if bool_decide (strip (question request) = [])
        then lit "Question cannot be empty"
        else lit "No document text provided")), w).
Proof.
  intros Hblank. unfold_handlers.
  destruct (strip (question request)) as [| c q] eqn:Eq; [reflexivity |].
  destruct Hblank as [H | H]; [discriminate |].
  rewrite H. reflexivity.
Qed.

Lemma ask_rejects_blank_input_witness :
  ask_question (mkQuestionRequest (lit "  ") lecture_text) (steady helpful_agents) empty_world =
    (Raise (HTTPException 400 (lit "Question cannot be empty")), empty_world).
Proof.
  apply (ask_rejects_blank_input (steady helpful_agents) empty_world
           (mkQuestionRequest (lit "  ") lecture_text)).
  left. vm_compute. reflexivity.
Defined.

(** What [ask_question] answers to a question and a document that are
    not blank: the agent's text, unchanged, with status "success" when it
    does not start with the error mark; 408 when the agent times out; 500
    when the text starts with the error mark and when the agent raises
    anything else. *)
Theorem ask_outcomes (env : environment) (w : world) (request : QuestionRequest) :
  strip (question request) <> [] ->
  strip (document_text request) <> [] ->
  (forall v, call_returned_str (ask_question request) env w v ->
     response (ask_question request) env w =
       if startswith v cross_mark
       then Raise (HTTPException 500
              (lit "Question answering failed: " ++ str_of_exn env (HTTPException 500 v)))
       else Ok (mkAnswerResponse v success)) /\
  (forall e, call_failed (ask_question request) env w e ->
     response (ask_question request) env w =
       Raise match e with
             | TimeoutError =>
                 HTTPException 408 (lit "Question answering timeout. Please try again.")
             | _ => HTTPException 500
                      (lit "Question answering failed: " ++ str_of_exn env e)
             end).
Proof.
  intros Hq Hd.
  destruct (strip (question request)) as [| c q] eqn:Eq; [done |].
  destruct (strip (document_text request)) as [| c' d] eqn:Ed; [done |].
  split.
  - intros v Hv. revert Hv. unfold call_returned_str. unfold_handlers. rewrite Eq, Ed. unfold_monad.
    cases; intros Hv; which_call Hv; first [congruence | reflexivity].
  - intros e He. revert He. unfold_handlers. rewrite Eq, Ed. unfold_monad.
    cases; intros He; which_call He; reflexivity.
Qed.

Lemma ask_outcomes_witness :
  response (ask_question (mkQuestionRequest (lit "Why?") lecture_text))
    (steady helpful_agents) empty_world
    = Ok (mkAnswerResponse (lit "Yes.") success) /\
  response (ask_question (mkQuestionRequest (lit "Why?") lecture_text))
    (steady slow_agents) empty_world
    = Raise (HTTPException 408 (lit "Question answering timeout. Please try again.")).
Proof.
  split.
  - destruct (ask_outcomes (steady helpful_agents) empty_world
                (mkQuestionRequest (lit "Why?") lecture_text)) as [H _].
    + vm_compute. discriminate.
    + vm_compute. discriminate.
    + rewrite (H (lit "Yes.")); [reflexivity |].
      eexists _, helpful_agents. split; [vm_compute; left | reflexivity].
  - destruct (ask_outcomes (steady slow_agents) empty_world
                (mkQuestionRequest (lit "Why?") lecture_text)) as [_ H].
    + vm_compute. discriminate.
    + vm_compute. discriminate.
    + rewrite (H TimeoutError); [reflexivity |].
      eexists _, slow_agents. split; [vm_compute; left | reflexivity].
Defined.

Ltac unfold_returned := unfold call_returned_str in *.

(** What [generate_summary] answers on an existing session when the agent
    does not time out: the agent's text, unchanged, with status "success"
    when it does not start with the error mark; 500 when it does and when
    the agent raises anything but a timeout. *)
Theorem summary_outcomes (env : environment) (w : world) (session_id : pystr) (s : session) :
  study_sessions w !! session_id = Some s ->
  (forall v, call_returned_str (generate_summary session_id) env w v ->
     response (generate_summary session_id) env w =
       if startswith v cross_mark
       then Raise (HTTPException 500
              (lit "Summary generation failed: " ++ str_of_exn env (HTTPException 500 v)))
       else Ok (mkSummaryResponse v success)) /\
  (forall e, call_failed (generate_summary session_id) env w e ->
     e <> TimeoutError ->
     response (generate_summary session_id) env w =
       Raise (HTTPException 500 (lit "Summary generation failed: " ++ str_of_exn env e))).
Proof.
  intros Hs. split.
  - intros v Hv. revert Hv. unfold_returned. enter Hs.
    destruct (summary_agent_generate _ _) as [a | e] eqn:E; cbn.
    + cases; intros Hv; which_call Hv; first [congruence | reflexivity].
    + destruct e; cbn; intros Hv; [which_call Hv | | which_call Hv ..].
      cases; which_call Hv.
  - intros e He Hne. revert He. enter Hs.
    destruct (summary_agent_generate _ _) as [a | e'] eqn:E; cbn.
    + cases; intros He; which_call He.
    + destruct e'; cbn; intros He; [which_call He; reflexivity | | which_call He; reflexivity ..].
      cases; which_call He; done.
Qed.

Lemma summary_outcomes_witness :
  response (generate_summary default_id) (steady helpful_agents) (world_with short_session)
    = Ok (mkSummaryResponse (lit "A short summary.") success).
Proof.
  destruct (summary_outcomes (steady helpful_agents) (world_with short_session) default_id
              short_session short_session_stored) as [H _].
  rewrite (H (lit "A short summary.")); [reflexivity |].
  eexists _, helpful_agents. split; [vm_compute; left | reflexivity].
Defined.

(** What [generate_flashcards] and [generate_quiz] answer on an existing
    session when the agent, asked with the cut text and the clamped count,
    does not time out: a non-empty list is returned as it is, with its
    length as count; anything the agent raises but a timeout gives 500. *)
Theorem cards_and_quiz_outcomes (env : environment) (w : world) (session_id : pystr)
    (s : session) (n : Z) :
  study_sessions w !! session_id = Some s ->
  (forall l, flashcard_agent_generate (agents env (trace w)) (truncate (text s) 6000)
               (Z.min (Z.max n 1) 20) = Ok l -> l <> [] ->
     response (generate_flashcards session_id n) env w
       = Ok (FlashcardResponse l (len l) success)) /\
  (forall l, quiz_agent_generate (agents env (trace w)) (truncate (text s) 6000)
               (Z.min (Z.max n 1) 15) = Ok l -> l <> [] ->
     response (generate_quiz session_id n) env w
       = Ok (QuizResponse l (len l) success)) /\
  (forall e, flashcard_agent_generate (agents env (trace w)) (truncate (text s) 6000)
               (Z.min (Z.max n 1) 20) = Raise e -> e <> TimeoutError ->
     response (generate_flashcards session_id n) env w
       = Raise (HTTPException 500
           (lit "Flashcard generation failed: " ++ str_of_exn env e))) /\
  (forall e, quiz_agent_generate (agents env (trace w)) (truncate (text s) 6000)
               (Z.min (Z.max n 1) 15) = Raise e -> e <> TimeoutError ->
     response (generate_quiz session_id n) env w
       = Raise (HTTPException 500 (lit "Quiz generation failed: " ++ str_of_exn env e))).
Proof.
  intros Hs. repeat apply conj.
  1-2: intros l Hl Hne; enter_with Hs; rewrite Hl; cbn; by destruct l.
  all: intros e He Hne; enter_with Hs; rewrite He; cbn; by destruct e.
Qed.

Lemma cards_and_quiz_outcomes_witness :
  response (generate_flashcards default_id 5) (steady helpful_agents)
    (world_with short_session) = Ok (FlashcardResponse [one_item] 1 success) /\
  response (generate_quiz default_id 5) (steady helpful_agents)
    (world_with short_session) = Ok (QuizResponse [one_item] 1 success) /\
  response (generate_flashcards default_id 5) (steady broken_search_agents)
    (world_with short_session)
    = Raise (HTTPException 500 (lit "Flashcard generation failed: ")) /\
  response (generate_quiz default_id 5) (steady broken_search_agents)
    (world_with short_session)
    = Raise (HTTPException 500 (lit "Quiz generation failed: ")).
Proof.
  destruct (cards_and_quiz_outcomes (steady helpful_agents) (world_with short_session)
              default_id short_session 5 short_session_stored) as (H1 & H2 & _).
  destruct (cards_and_quiz_outcomes (steady broken_search_agents) (world_with short_session)
              default_id short_session 5 short_session_stored) as (_ & _ & H3 & H4).
  repeat apply conj.
  - apply (H1 [one_item] eq_refl). discriminate.
  - apply (H2 [one_item] eq_refl). discriminate.
  - rewrite (H3 (Exception (lit "connection refused")) eq_refl); [| discriminate].
    vm_compute. reflexivity.
  - rewrite (H4 (Exception (lit "connection refused")) eq_refl); [| discriminate].
    vm_compute. reflexivity.
Defined.

(** On an existing session a discovery handler returns the list its search
    agent returned, as it is, empty or not, with its length as count: the
    paper search asked with the cut text and the capped count, the video
    and web searches asked with the topic and keywords the keyword
    extraction returned. *)
Theorem discovery_returns_search_result (env : environment) (w : world)
    (session_id : pystr) (s : session) (n : Z) (l : list pydict) :
  study_sessions w !! session_id = Some s ->
  let keywords := extract_smart_keywords_and_topic (truncate (text s) 3000) in
  let after_keywords := agents env (trace w ++ [wait_for_to_thread keywords 45]) in
  (research_agent_find_papers (agents env (trace w)) (truncate (text s) 4000) (Z.min n 15)
     = Ok l ->
     response (discover_research session_id n) env w
       = Ok (ResearchPapersResponse l (len l) success)) /\
  (forall topic research_keywords all_keywords,
     research_agent_keywords (agents env (trace w)) (truncate (text s) 3000)
       = Ok (topic, research_keywords, all_keywords) ->
     (youtube_agent_find_videos after_keywords research_keywords topic (Z.min n 12) = Ok l ->
        response (discover_videos session_id n) env w
          = Ok (VideosResponse l (len l) success)) /\
     (web_agent_find_resources after_keywords research_keywords topic (Z.min n 15) = Ok l ->
        response (discover_resources session_id n) env w
          = Ok (WebResourcesResponse l (len l) success))).
Proof.
  intros Hs. cbn zeta. split.
  - intros Hl. enter_with Hs. rewrite Hl. reflexivity.
  - intros topic research_keywords all_keywords Hkw. split; intros Hl.
    all: enter_with Hs; rewrite Hkw; cbn; rewrite Hl; reflexivity.
Qed.

Lemma discovery_returns_search_result_witness :
  response (discover_research default_id 5) (steady helpful_agents) (world_with short_session)
    = Ok (ResearchPapersResponse [one_item] 1 success) /\
  response (discover_videos default_id 5) (steady helpful_agents) (world_with short_session)
    = Ok (VideosResponse [one_item] 1 success) /\
  response (discover_resources default_id 5) (steady helpful_agents) (world_with short_session)
    = Ok (WebResourcesResponse [one_item] 1 success).
Proof.
  destruct (discovery_returns_search_result (steady helpful_agents)
              (world_with short_session) default_id short_session 5 [one_item]
              short_session_stored) as (H1 & H2).
  destruct (H2 (lit "graphs") [lit "trees"] [lit "trees"; lit "paths"] eq_refl) as [H2v H2r].
  split; [exact (H1 eq_refl) |]. split; [exact (H2v eq_refl) | exact (H2r eq_refl)].
Defined.

Ltac code_in_list :=
  cbn; repeat first [ apply list_elem_of_here | apply list_elem_of_further ].

(** The only exceptions the session handlers, [ask_question],
    [clear_session] and [get_session_info] raise are [HTTPException]s, with
    these status codes: 404, 408 or 500 for the summary; 404 or 500 for
    flashcards and quiz; 404 alone for the three discovery handlers; 400,
    408 or 500 for question answering; none at all for clear-session and
    session-info. *)
Theorem handlers_status_codes (env : environment) (w : world) (session_id : pystr) (n : Z)
    (request : QuestionRequest) :
  raises_only [404; 408; 500] (response (generate_summary session_id) env w) /\
  raises_only [404; 500] (response (generate_flashcards session_id n) env w) /\
  raises_only [404; 500] (response (generate_quiz session_id n) env w) /\
  raises_only [404] (response (discover_research session_id n) env w) /\
  raises_only [404] (response (discover_videos session_id n) env w) /\
  raises_only [404] (response (discover_resources session_id n) env w) /\
  raises_only [400; 408; 500] (response (ask_question request) env w) /\
  raises_only [] (response (clear_session session_id) env w) /\
  raises_only [] (response (get_session_info session_id) env w).
Proof.
  destruct (study_sessions w !! session_id) as [s |] eqn:Hs.
  - repeat apply conj.
    1-6, 8-9: enter Hs; cases; try done; code_in_list.
    unfold_handlers; unfold_monad; cases; try done; code_in_list.
  - repeat apply conj.
    1-6: unfold response.
    1-6: destruct (absent_session_raises env w session_id n Hs) as (E1 & E2 & E3 & E4 & E5 & E6).
    1-6: rewrite ?E1, ?E2, ?E3, ?E4, ?E5, ?E6; code_in_list.
    all: unfold_handlers; unfold_monad; cbn; rewrite ?(contains_absent _ _ Hs); cases;
         try done; code_in_list.
Qed.

(** Every piece of work a handler offloads is given the deadline of its
    kind: 120 seconds for the text extraction, 90 for the summary, 120 for
    flashcards and quiz, 180 for the paper search, 45 for the keyword
    extraction, 150 for the video and web searches, 60 for the answer to a
    question. *)
Theorem offloaded_work_has_its_deadline (env : environment) (w : world) (session_id : pystr)
    (n : Z) (request : QuestionRequest) (file : UploadFile) :
  on_deadline (upload_pdf file) env w /\
  on_deadline (ask_question request) env w /\
  on_deadline (generate_summary session_id) env w /\
  on_deadline (generate_flashcards session_id n) env w /\
  on_deadline (generate_quiz session_id n) env w /\
  on_deadline (discover_research session_id n) env w /\
  on_deadline (discover_videos session_id n) env w /\
  on_deadline (discover_resources session_id n) env w.
Proof.
  unfold on_deadline. repeat apply conj.
  1-2: unfold_handlers; unfold_monad; cases; repeat constructor.
  all: destruct (study_sessions w !! session_id) as [s |] eqn:Hs;
       [ enter Hs; cases; repeat constructor
       | unfold new_events, after;
         destruct (absent_session_raises env w session_id n Hs)
           as (E1 & E2 & E3 & E4 & E5 & E6);
         rewrite ?E1, ?E2, ?E3, ?E4, ?E5, ?E6; cbn; rewrite drop_all; constructor ].
Qed.

(** When the keyword extraction returns, [discover_videos] and
    [discover_resources] search with the topic and the research keywords
    it returned, leaving its third result unused; the whole run is the
    keyword extraction on the cut text followed by that search. *)
Theorem discovery_searches_with_extracted_keywords (env : environment) (w : world)
    (session_id : pystr) (s : session) (n : Z)
    (topic : pystr) (research_keywords all_keywords : list pystr) :
  study_sessions w !! session_id = Some s ->
  research_agent_keywords (agents env (trace w)) (truncate (text s) 3000)
    = Ok (topic, research_keywords, all_keywords) ->
  new_events (discover_videos session_id n) env w =
    [wait_for_to_thread (extract_smart_keywords_and_topic (truncate (text s) 3000)) 45;
     wait_for_to_thread (find_videos research_keywords topic (Z.min n 12)) 150] /\
  new_events (discover_resources session_id n) env w =
    [wait_for_to_thread (extract_smart_keywords_and_topic (truncate (text s) 3000)) 45;
     wait_for_to_thread (find_resources research_keywords topic (Z.min n 15)) 150].
Proof.
  intros Hs Hkw. split; enter Hs; rewrite Hkw; cases; repeat f_equal; lia.
Qed.

Lemma discovery_searches_with_extracted_keywords_witness :
  new_events (discover_videos default_id 50) (steady helpful_agents) (world_with short_session) =
    [wait_for_to_thread (extract_smart_keywords_and_topic (lit "one two three")) 45;
     wait_for_to_thread (find_videos [lit "trees"] (lit "graphs") 12) 150].
Proof.
  exact (proj1 (discovery_searches_with_extracted_keywords (steady helpful_agents)
                  (world_with short_session) default_id short_session 50
                  (lit "graphs") [lit "trees"] [lit "trees"; lit "paths"]
                  short_session_stored eq_refl)).
Defined.

(** [clear_session] by cases on the store. *)
Lemma clear_session_outcomes (env : environment) (w : world) (session_id : pystr) :
  clear_session session_id env w =
    match study_sessions w !! session_id with
    | Some _ =>
        (Ok [(lit "message", JStr (lit "Session cleared successfully"));
             (lit "status", JStr (lit "success"))],
         {| study_sessions := delete session_id (study_sessions w); trace := trace w |})
    | None =>
        (Ok [(lit "message", JStr (lit "No active session found"));
             (lit "status", JStr (lit "info"))], w)
    end.
Proof.
  destruct (study_sessions w !! session_id) as [s |] eqn:Hs.
  - enter Hs. reflexivity.
  - unfold_handlers; unfold_monad; cbn. rewrite (contains_absent _ _ Hs). reflexivity.
Qed.

(** After a [clear_session] the session is gone and the other sessions
    are as they were; the answer says "success" exactly when there was
    something to clear. A second [clear_session] then finds nothing,
    answers "info" and changes nothing. Neither calls an agent. *)
Theorem clear_session_twice (env : environment) (w : world) (session_id : pystr) :
  let w1 := after (clear_session session_id) env w in
  study_sessions w1 !! session_id = None /\
  (forall other, other <> session_id ->
     study_sessions w1 !! other = study_sessions w !! other) /\
  clear_session session_id env w1 =
    (Ok [(lit "message", JStr (lit "No active session found"));
         (lit "status", JStr (lit "info"))], w1).
Proof.
  cbn zeta.
  assert (Hgone : study_sessions (after (clear_session session_id) env w) !! session_id = None).
  { unfold after. rewrite clear_session_outcomes.
    destruct (study_sessions w !! session_id) eqn:Hs; cbn; [apply lookup_delete_eq | done]. }
  split; [exact Hgone |]. split.
  - intros other Hne. unfold after. rewrite clear_session_outcomes.
    destruct (study_sessions w !! session_id) eqn:Hs; cbn; [| done].
    by apply lookup_delete_ne.
  - rewrite clear_session_outcomes, Hgone. reflexivity.
Qed.

(** [get_session_info] by cases on the store. *)
Lemma get_session_info_outcomes (env : environment) (w : world) (session_id : pystr) :
  get_session_info session_id env w =
    (Ok match study_sessions w !! session_id with
        | Some session_data =>
            [(lit "active", JBool true);
             (lit "file_info", JStr (file_info session_data));
             (lit "filename", JStr (filename session_data));
             (lit "word_count", JInt (x_word_count (processing_result session_data)));
             (lit "page_count", JInt (x_page_count (processing_result session_data)));
             (lit "methods_used",
              JList (JStr <$> x_methods_used (processing_result session_data)))]
        | None =>
            [(lit "active", JBool false); (lit "message", JStr (lit "No active session"))]
        end, w).
Proof.
  destruct (study_sessions w !! session_id) as [s |] eqn:Hs.
  - enter Hs. reflexivity.
  - unfold_handlers; unfold_monad; cbn. rewrite (contains_absent _ _ Hs). reflexivity.
Qed.

(** After an accepted upload, [get_session_info] on "default" reports an
    active session with the name of the uploaded file, its size in MB to
    two decimals, and the word count, page count and methods of the
    extraction; it calls nothing and changes nothing. *)
Theorem session_info_after_upload (env : environment) (w : world) (file : UploadFile)
    (name : pystr) (content : bytes) (r : extraction) :
  upload_accepted file env w name content r ->
  let w1 := after (upload_pdf file) env w in
  get_session_info (lit "default") env w1 =
    (Ok [(lit "active", JBool true);
         (lit "file_info",
          JStr (lit "File: " ++ name ++ lit " (" ++ format_mb (len content) ++ lit " MB)"));
         (lit "filename", JStr name);
         (lit "word_count", JInt (x_word_count r));
         (lit "page_count", JInt (x_page_count r));
         (lit "methods_used", JList (JStr <$> x_methods_used r))], w1).
Proof.
  intros Hacc. cbn zeta. destruct (accepted_upload _ _ _ _ _ _ Hacc) as [_ Hstore].
  rewrite get_session_info_outcomes, Hstore, lookup_insert_eq. reflexivity.
Qed.

Lemma session_info_after_upload_witness :
  response (get_session_info (lit "default")) (steady helpful_agents)
    (after (upload_pdf lecture_upload) (steady helpful_agents) (world_with short_session))
  = Ok [(lit "active", JBool true);
        (lit "file_info", JStr (lit "File: Lecture.pdf (0.00 MB)"));
        (lit "filename", JStr (lit "Lecture.pdf"));
        (lit "word_count", JInt 13);
        (lit "page_count", JInt 2);
        (lit "methods_used", JList [JStr (lit "pdfplumber")])].
Proof.
  unfold response.
  rewrite (session_info_after_upload (steady helpful_agents) (world_with short_session)
             lecture_upload (lit "Lecture.pdf") pdf_body lecture lecture_upload_accepted).
  vm_compute. reflexivity.
Defined.

(** After an accepted upload and a [clear_session] of "default", every
    generation and discovery request on "default" is answered 404 without
    calling an agent. *)
Theorem cleared_upload_is_not_found (env : environment) (w : world) (file : UploadFile)
    (name : pystr) (content : bytes) (r : extraction) (n : Z) :
  upload_accepted file env w name content r ->
  let w1 := after (upload_pdf file) env w in
  let w2 := after (clear_session (lit "default")) env w1 in
  response (clear_session (lit "default")) env w1
    = Ok [(lit "message", JStr (lit "Session cleared successfully"));
          (lit "status", JStr (lit "success"))] /\
  not_found_untouched (generate_summary (lit "default")) env w2 /\
  not_found_untouched (generate_flashcards (lit "default") n) env w2 /\
  not_found_untouched (generate_quiz (lit "default") n) env w2 /\
  not_found_untouched (discover_research (lit "default") n) env w2 /\
  not_found_untouched (discover_videos (lit "default") n) env w2 /\
  not_found_untouched (discover_resources (lit "default") n) env w2.
Proof.
  intros Hacc. cbn zeta. destruct (accepted_upload _ _ _ _ _ _ Hacc) as [_ Hstore].
  assert (Hin : study_sessions (after (upload_pdf file) env w) !! lit "default"
                = Some (stored_session name content r))
    by (rewrite Hstore; apply lookup_insert_eq).
  split.
  { unfold response. rewrite clear_session_outcomes, Hin. reflexivity. }
  assert (Hgone : study_sessions (after (clear_session (lit "default")) env
                                    (after (upload_pdf file) env w)) !! lit "default" = None).
  { unfold after at 1. rewrite clear_session_outcomes, Hin. cbn. apply lookup_delete_eq. }
  remember (after (clear_session (lit "default")) env (after (upload_pdf file) env w)) as w2.
  unfold not_found_untouched, new_events, response, after.
  destruct (absent_session_raises env w2 (lit "default") n Hgone) as (-> & -> & -> & -> & -> & ->).
  cbn. rewrite drop_all. auto 20.
Qed.

Lemma cleared_upload_is_not_found_witness :
  not_found_untouched (generate_summary (lit "default")) (steady helpful_agents)
    (after (clear_session (lit "default")) (steady helpful_agents)
       (after (upload_pdf lecture_upload) (steady helpful_agents) (world_with short_session))).
Proof.
  exact (proj1 (proj2 (cleared_upload_is_not_found (steady helpful_agents)
                         (world_with short_session) lecture_upload (lit "Lecture.pdf")
                         pdf_body lecture 5 lecture_upload_accepted))).
Defined.

(** After an accepted upload, each generation and discovery request on
    "default" works on the text the extraction returned: its first
    offloaded call carries that text cut to the handler's budget. *)
Theorem generation_uses_uploaded_text (env : environment) (w : world) (file : UploadFile)
    (name : pystr) (content : bytes) (r : extraction) (n : Z) :
  upload_accepted file env w name content r ->
  let w1 := after (upload_pdf file) env w in
  forwards_cut (generate_summary (lit "default")) env w1 8000 (x_text r) /\
  forwards_cut (generate_flashcards (lit "default") n) env w1 6000 (x_text r) /\
  forwards_cut (generate_quiz (lit "default") n) env w1 6000 (x_text r) /\
  forwards_cut (discover_research (lit "default") n) env w1 4000 (x_text r) /\
  forwards_cut (discover_videos (lit "default") n) env w1 3000 (x_text r) /\
  forwards_cut (discover_resources (lit "default") n) env w1 3000 (x_text r).
Proof.
  intros Hacc. cbn zeta. destruct (accepted_upload _ _ _ _ _ _ Hacc) as [_ Hstore].
  assert (Hs : study_sessions (after (upload_pdf file) env w) !! lit "default"
               = Some (stored_session name content r))
    by (rewrite Hstore; apply lookup_insert_eq).
  clear Hstore Hacc.
  remember (after (upload_pdf file) env w) as w1. clear Heqw1.
  repeat apply conj.
  all: unfold forwards_cut; enter Hs.
  1: exists (summary_generate_summary (truncate (x_text r) 8000)), 90.
  2: exists (generate_flashcards_structured (truncate (x_text r) 6000)
               (if (n <? 1) || (n >? 20) then Z.min (Z.max n 1) 20 else n)), 120.
  3: exists (generate_quiz_structured (truncate (x_text r) 6000)
               (if (n <? 1) || (n >? 15) then Z.min (Z.max n 1) 15 else n)), 120.
  4: exists (find_papers (truncate (x_text r) 4000) (if n >? 15 then 15 else n)), 180.
  5-6: exists (extract_smart_keywords_and_topic (truncate (x_text r) 3000)), 45.
  all: eexists; split; [first_event; reflexivity | split; [reflexivity |]].
  all: apply truncate_meets_spec; lia.
Qed.

Lemma generation_uses_uploaded_text_witness :
  forwards_cut (generate_summary (lit "default")) (steady helpful_agents)
    (after (upload_pdf lecture_upload) (steady helpful_agents) (world_with short_session))
    8000 lecture_text.
Proof.
  exact (proj1 (generation_uses_uploaded_text (steady helpful_agents)
                  (world_with short_session) lecture_upload (lit "Lecture.pdf")
                  pdf_body lecture 5 lecture_upload_accepted)).
Defined.

(** ** The single slot, startup and health *)

(** The handlers other than [upload_pdf] and [clear_session] write nothing
    of their own. *)
Lemma readers_leave_store (env : environment) (w : world) (session_id : pystr)
    (n : Z) (request : QuestionRequest) :
  leaves_store (generate_summary session_id) env w /\
  leaves_store (generate_flashcards session_id n) env w /\
  leaves_store (generate_quiz session_id n) env w /\
  leaves_store (discover_research session_id n) env w /\
  leaves_store (discover_videos session_id n) env w /\
  leaves_store (discover_resources session_id n) env w /\
  leaves_store (ask_question request) env w /\
  leaves_store (get_session_info session_id) env w.
Proof.
  destruct (study_sessions w !! session_id) as [s |] eqn:Hs.
  - repeat apply conj; enter Hs; cases; by frame.
  - repeat apply conj.
    1-6: unfold leaves_store, new_events, after.
    1-6: destruct (absent_session_raises env w session_id n Hs) as (E1 & E2 & E3 & E4 & E5 & E6).
    1-6: rewrite ?E1, ?E2, ?E3, ?E4, ?E5, ?E6; cbn; rewrite drop_all; reflexivity.
    all: unfold_handlers; unfold_monad; cbn; rewrite ?(contains_absent _ _ Hs); cases.
    all: by frame.
Qed.

Lemma apply_ops_single_slot (ops : list store_op) (m : gmap pystr session) :
  (forall k s, store_put k s ∈ ops -> k = lit "default") ->
  single_slot m -> single_slot (apply_ops ops m).
Proof.
  revert m. induction ops as [| o ops IH]; intros m Hops Hm; [exact Hm |].
  unfold apply_ops. cbn. apply IH.
  - intros k s Hin. apply (Hops k s). by right.
  - intros k Hk. destruct o as [k' s' | k']; cbn.
    + rewrite lookup_insert_ne; [by apply Hm |].
      rewrite (Hops k' s') by left. congruence.
    + destruct (decide (k' = k)) as [-> | Hne].
      * apply lookup_delete_eq.
      * rewrite lookup_delete_ne by done. by apply Hm.
Qed.

Lemma meanwhile_upload_like (env : environment) (tr evs : list event) :
  others_upload_like env ->
  forall k s, store_put k s ∈ meanwhile env tr evs -> k = lit "default".
Proof.
  intros Henv. revert tr. induction evs as [| ev evs IH]; intros tr k s Hin; cbn in Hin.
  - by apply elem_of_nil in Hin.
  - apply elem_of_app in Hin as [Hin | Hin]; [| by eapply IH].
    destruct (awaited ev); [by eapply Henv | by apply elem_of_nil in Hin].
Qed.

Lemma leaves_store_single_slot {A} (m : M A) (env : environment) (w : world) :
  others_upload_like env -> single_slot (study_sessions w) ->
  leaves_store m env w -> single_slot (study_sessions (after m env w)).
Proof.
  intros Henv Hw H. rewrite H. apply apply_ops_single_slot; [| exact Hw].
  by apply meanwhile_upload_like.
Qed.

Lemma single_slot_size (m : gmap pystr session) :
  single_slot m ->
  size m = match m !! lit "default" with Some _ => 1%nat | None => 0%nat end.
Proof.
  intros Hm. destruct (m !! lit "default") as [s |] eqn:E.
  - assert (m = {[lit "default" := s]}) as ->; [| apply map_size_singleton].
    apply map_eq. intros k. destruct (decide (k = lit "default")) as [-> | Hne].
    + by rewrite lookup_singleton_eq.
    + rewrite lookup_singleton_ne by done. by apply Hm.
  - assert (m = ∅) as ->; [| apply map_size_empty].
    apply map_eq. intros k. rewrite lookup_empty.
    destruct (decide (k = lit "default")) as [-> | Hne]; [done | by apply Hm].
Qed.

(** The store is a single slot. When it holds nothing but, possibly, a
    session under "default", and the other requests write like uploads,
    then after any request of any handler it still holds nothing but,
    possibly, a session under "default". *)
Theorem store_stays_single_slot (env : environment) (w : world) (session_id : pystr)
    (n : Z) (request : QuestionRequest) (file : UploadFile) :
  others_upload_like env ->
  single_slot (study_sessions w) ->
  single_slot (study_sessions (after (upload_pdf file) env w)) /\
  single_slot (study_sessions (after (clear_session session_id) env w)) /\
  single_slot (study_sessions (after (generate_summary session_id) env w)) /\
  single_slot (study_sessions (after (generate_flashcards session_id n) env w)) /\
  single_slot (study_sessions (after (generate_quiz session_id n) env w)) /\
  single_slot (study_sessions (after (discover_research session_id n) env w)) /\
  single_slot (study_sessions (after (discover_videos session_id n) env w)) /\
  single_slot (study_sessions (after (discover_resources session_id n) env w)) /\
  single_slot (study_sessions (after (ask_question request) env w)) /\
  single_slot (study_sessions (after (get_session_info session_id) env w)).
Proof.
  intros Henv Hw.
  destruct (readers_leave_store env w session_id n request)
    as (H1 & H2 & H3 & H4 & H5 & H6 & H7 & H8).
  repeat apply conj; try (by apply leaves_store_single_slot).
  - destruct (upload_writes_default env w file) as [H | [s H]].
    + by apply leaves_store_single_slot.
    + rewrite H. intros k Hk. rewrite lookup_insert_ne by done.
      revert k Hk. apply apply_ops_single_slot; [| exact Hw].
      by apply meanwhile_upload_like.
  - unfold after. rewrite clear_session_outcomes.
    destruct (study_sessions w !! session_id) eqn:E; cbn; [| exact Hw].
    intros k Hk. destruct (decide (session_id = k)) as [-> | Hne].
    + apply lookup_delete_eq.
    + rewrite lookup_delete_ne by done. by apply Hw.
Qed.

Lemma store_stays_single_slot_witness :
  single_slot (study_sessions (after (upload_pdf lecture_upload) (steady helpful_agents)
                                 (world_with short_session))).
Proof.
  refine (proj1 (store_stays_single_slot (steady helpful_agents) (world_with short_session)
                   default_id 5 (mkQuestionRequest (lit "Why?") lecture_text)
                   lecture_upload _ _)).
  - intros tr k s Hin. by apply elem_of_nil in Hin.
  - intros k Hk. unfold world_with. cbn. by apply lookup_singleton_ne.
Defined.

Section StartupProperties.

Context {agent : Type}.
Variable truthy : agent -> bool.

Ltac distinct_names := intros Hsame; vm_compute in Hsame; discriminate.

Ltac bound_name :=
  repeat first
    [ rewrite lookup_insert_eq
    | rewrite lookup_insert_ne by distinct_names ].

(** When [startup_event] returns, the key is configured and every one of
    the eight agent names is bound. *)
Lemma startup_binds_names (key : option pystr) (lib : @pipeline_classes agent)
    (names names' : gmap pystr agent) :
  startup_event key lib names = (Ok tt, names') ->
  key_configured key = true /\
  Forall (fun name => is_Some (names' !! name)) agent_names.
Proof.
  unfold startup_event.
  destruct (key_configured key); cbn; [| discriminate].
  destruct (OpenAIClient lib) as [client |]; [| discriminate].
  destruct (EnhancedPDFProcessor lib); [| discriminate].
  destruct (SummaryAgent lib client); [| discriminate].
  destruct (FlashcardAgent lib client); [| discriminate].
  destruct (QuizAgent lib client); [| discriminate].
  destruct (EnhancedResearchDiscoveryAgent lib client); [| discriminate].
  destruct (YouTubeDiscoveryAgent lib client); [| discriminate].
  destruct (WebResourceAgent lib client); [| discriminate].
  destruct (test_connection lib client); [| discriminate].
  intros H. injection H as <-. split; [reflexivity |].
  unfold agent_names. repeat constructor; bound_name; eauto.
Qed.

(** After a [startup_event] that returned, with agents that are true as
    objects are by default, [health_check] answers "healthy" with
    [agents_initialized] true, whether or not the key is still configured,
    and reports the number of stored sessions; it changes nothing. When the
    store is the single slot that number is 1 if "default" is stored and 0
    if not. *)
Theorem healthy_after_startup (key key' : option pystr) (lib : @pipeline_classes agent)
    (names names' : gmap pystr agent) (env : environment) (w : world) :
  startup_event key lib names = (Ok tt, names') ->
  (forall a, truthy a = true) ->
  single_slot (study_sessions w) ->
  health_check truthy names' key' env w =
    (Ok [(lit "status", JStr (lit "healthy"));
         (lit "agents_initialized", JBool true);
         (lit "openai_key_configured", JBool (key_configured key'));
         (lit "active_sessions",
          JInt (match study_sessions w !! lit "default" with Some _ => 1 | None => 0 end))],
     w).
Proof.
  intros Hstart Htruthy Hslot.
  destruct (startup_binds_names _ _ _ _ Hstart) as [_ Hbound].
  unfold health_check.
  assert (Hall : forallb (name_truthy truthy names') agent_names = true).
  { apply forallb_forall. intros name Hin.
    rewrite Forall_forall in Hbound. apply list_elem_of_In in Hin.
    destruct (Hbound name Hin) as [a Ha]. unfold name_truthy. rewrite Ha. apply Htruthy. }
  rewrite Hall. cbn. rewrite (single_slot_size _ Hslot).
  by destruct (study_sessions w !! lit "default").
Qed.

(** Without a configured key [startup_event] raises at once and binds no
    name; as long as one agent name is unbound [health_check] answers 503,
    whatever the key and the store. *)
Theorem unhealthy_without_startup (key key' : option pystr) (lib : @pipeline_classes agent)
    (names : gmap pystr agent) (name : pystr) (env : environment) (w : world) :
  key_configured key = false ->
  name ∈ agent_names ->
  names !! name = None ->
  startup_event key lib names
    = (Raise (Exception (lit "OPENAI_API_KEY is required")), names) /\
  health_check truthy names key' env w
    = (Raise (HTTPException 503 (lit "Agents not properly initialized")), w).
Proof.
  intros Hkey Hin Hname. split.
  - unfold startup_event. rewrite Hkey. reflexivity.
  - unfold health_check.
    assert (Hall : forallb (name_truthy truthy names) agent_names = false).
    { apply not_true_is_false. intros Hall.
      rewrite forallb_forall in Hall. apply list_elem_of_In in Hin.
      specialize (Hall name Hin). unfold name_truthy in Hall. by rewrite Hname in Hall. }
    rewrite Hall. reflexivity.
Qed.

End StartupProperties.

Lemma short_session_single_slot : single_slot (study_sessions (world_with short_session)).
Proof. intros k Hk. unfold world_with. cbn. by apply lookup_singleton_ne. Defined.

Lemma healthy_after_startup_witness :
  response (health_check (fun _ : unit => true) started_names None)
    (steady helpful_agents) (world_with short_session)
  = Ok [(lit "status", JStr (lit "healthy"));
        (lit "agents_initialized", JBool true);
        (lit "openai_key_configured", JBool false);
        (lit "active_sessions", JInt 1)].
Proof.
  unfold response.
  rewrite (healthy_after_startup (fun _ : unit => true) (Some (lit "sk-test")) None
             working_pipeline ∅ started_names (steady helpful_agents)
             (world_with short_session));
    [ reflexivity | vm_compute; reflexivity | reflexivity | exact short_session_single_slot ].
Defined.

Lemma unhealthy_without_startup_witness :
  response (health_check (fun _ : unit => true) ∅ (Some (lit "sk-test")))
    (steady helpful_agents) empty_world
  = Raise (HTTPException 503 (lit "Agents not properly initialized")).
Proof.
  unfold response.
  rewrite (proj2 (unhealthy_without_startup (fun _ : unit => true) None (Some (lit "sk-test"))
                    working_pipeline ∅ (lit "web_agent") (steady helpful_agents) empty_world
                    eq_refl ltac:(vm_compute; repeat constructor) eq_refl)).
  reflexivity.
Defined.

(** [ask_question] never reads the store: it answers from the document
    text of the request, so its answer and its call are the same with or
    without an uploaded session. *)
Theorem ask_does_not_read_store (env : environment) (w w' : world)
    (request : QuestionRequest) :
  trace w = trace w' ->
  response (ask_question request) env w = response (ask_question request) env w' /\
  new_events (ask_question request) env w = new_events (ask_question request) env w'.
Proof.
  destruct w as [m tr], w' as [m' tr']. cbn. intros <-.
  unfold_handlers; unfold_monad; cases; done.
Qed.

Lemma ask_does_not_read_store_witness :
  response (ask_question (mkQuestionRequest (lit "Why?") lecture_text))
    (steady helpful_agents) (world_with short_session)
  = response (ask_question (mkQuestionRequest (lit "Why?") lecture_text))
      (steady helpful_agents) empty_world.
Proof.
  exact (proj1 (ask_does_not_read_store (steady helpful_agents) (world_with short_session)
                  empty_world (mkQuestionRequest (lit "Why?") lecture_text) eq_refl)).
Defined.
